(** * ticket-check-action: the ticket resolver of [src/index.ts]

    A shallow embedding of the action's [run] function and of the helpers it
    is built from, followed by the properties of the specification that were
    checked against it.

    Conventions of the model.
    - A JavaScript string is a [string]; its characters stand for the code
      units U+0000..U+00FF.
    - The action's inputs are a finite map from option names to the values
      as they were supplied ([gmap string string]); an option that was not
      supplied has no entry. [getInput] trims what it returns.
    - The platform services the action calls but does not define (the regular
      expression engine, [JSON.stringify]) are the fields of the class
      [Platform]; every theorem holds for every instance.
    - The calls to the outside world ([core.debug], [core.setFailed],
      [getOctokit], [pulls.update], [pulls.createReview]) are recorded, in
      the order they are made, in a list of [Event]s. *)

From Stdlib Require Import Ascii String.
From stdpp Require Import base option list gmap strings.

(** ** JavaScript string primitives used by the action *)

Module JsString.

(** [strip_prefix p s] is the rest of [s] after its prefix [p], if [s]
    starts with [p]. *)
Fixpoint strip_prefix (p s : string) : option string :=
  match p, s with
  | EmptyString, _ => Some s
  | String _ _, EmptyString => None
  | String a p', String b s' =>
      if Ascii.eqb a b then strip_prefix p' s' else None
  end.

(** [split_first pat s] cuts [s] around the first occurrence of [pat]:
    the text before it and the text after it ([indexOf] and two slices). *)
Fixpoint split_first (pat s : string) : option (string * string) :=
  match strip_prefix pat s with
  | Some rest => Some (EmptyString, rest)
  | None =>
      match s with
      | EmptyString => None
      | String c s' =>
          match split_first pat s' with
          | Some (before, after) => Some (String c before, after)
          | None => None
          end
      end
  end.

(** [GetSubstitution] of ECMAScript for a search by string: no capture
    groups exist, so only [$$], [$&], [$`] and [$'] are replacement
    patterns; a [$] followed by anything else stands for itself. *)
Fixpoint get_substitution (matched before after repl : string) : string :=
  match repl with
  | EmptyString => EmptyString
  | String c rest =>
      if Ascii.eqb c "$" then
        match rest with
        | EmptyString => String c EmptyString
        | String d rest' =>
            if Ascii.eqb d "$" then
              String "$" (get_substitution matched before after rest')
            else if Ascii.eqb d "&" then
              matched +:+ get_substitution matched before after rest'
            else if Ascii.eqb d "`" then
              before +:+ get_substitution matched before after rest'
            else if Ascii.eqb d "'" then
              after +:+ get_substitution matched before after rest'
            else String c (get_substitution matched before after rest)
        end
      else String c (get_substitution matched before after rest)
  end.

(** [s.replace(search, repl)] with a string [search] and a string [repl]:
    only the first occurrence is replaced. *)
Definition replace (s search repl : string) : string :=
  match split_first search s with
  | None => s
  | Some (before, after) =>
      before +:+ get_substitution search before after repl +:+ after
  end.

(** White space and line terminators of ECMAScript among U+0000..U+00FF. *)
Definition is_white_space (c : ascii) : bool :=
  let n := N_of_ascii c in
  ((9 <=? n) && (n <=? 13) || (n =? 32) || (n =? 160))%N.

Fixpoint trim_start (s : string) : string :=
  match s with
  | EmptyString => EmptyString
  | String c s' => if is_white_space c then trim_start s' else s
  end.

Fixpoint trim_end (s : string) : string :=
  match s with
  | EmptyString => EmptyString
  | String c s' =>
      match trim_end s' with
      | EmptyString => if is_white_space c then EmptyString else String c EmptyString
      | r => String c r
      end
  end.

(** [s.trim()] *)
Definition trim (s : string) : string := trim_end (trim_start s).

(** [s.split(sep)] for a separator of one character. *)
Fixpoint split (s : string) (sep : ascii) : list string :=
  match s with
  | EmptyString => [EmptyString]
  | String c s' =>
      if Ascii.eqb c sep then EmptyString :: split s' sep
      else
        match split s' sep with
        | [] => [String c EmptyString]
        | piece :: pieces => String c piece :: pieces
        end
  end.

(** [a.join(sep)] *)
Fixpoint join (a : list string) (sep : string) : string :=
  match a with
  | [] => EmptyString
  | [x] => x
  | x :: rest => x +:+ sep +:+ join rest sep
  end.

(** [a.includes(x)] *)
Definition includes (a : list string) (x : string) : bool :=
  bool_decide (x ∈ a).

(** [s.toUpperCase()] on the letters a..z; every label the action passes
    to it is an ASCII literal. *)
Definition upper_char (c : ascii) : ascii :=
  let n := N_of_ascii c in
  if ((97 <=? n) && (n <=? 122))%N then ascii_of_N (n - 32) else c.

Fixpoint toUpperCase (s : string) : string :=
  match s with
  | EmptyString => EmptyString
  | String c s' => String (upper_char c) (toUpperCase s')
  end.

(** A string is truthy when it is not empty. *)
Definition truthy (s : string) : bool :=
  match s with EmptyString => false | String _ _ => true end.

(** [c] does not occur in [s]. *)
Fixpoint free_of (c : ascii) (s : string) : bool :=
  match s with
  | EmptyString => true
  | String d s' => negb (Ascii.eqb c d) && free_of c s'
  end.

End JsString.

(** A value that the source types as [string] and that can be [null] when
    the action runs. *)
Inductive JsText := JsNull | JsStr (s : string).

Coercion JsStr : string >-> JsText.

(** [String(v)]: how [exec] reads its argument. *)
Definition to_string (v : JsText) : string :=
  match v with
  | JsNull => "null"
  | JsStr s => s
  end.

(** ** What the action is given *)

(** [context.payload.pull_request] and [context.issue], as far as [run]
    reads them: [title], [head.ref], [body], [user.login] and [user.type] of
    the pull request, and the [owner], [repo] and [number] of
    [context.issue]. The body is a string, [null] (what the platform sends
    for a pull request without a description) or [undefined] (no such field:
    [None]); [login] and [type] of the author are read with [as string]. *)
Record PullRequestContext := {
  title : string;
  head_ref : string;
  body : option JsText;
  user_login : string;
  user_type : string;
  owner : string;
  repo : string;
  number : N
}.

(** The same pull request with another body. *)
Definition with_body (ctx : PullRequestContext) (body' : option JsText)
    : PullRequestContext :=
  {| title := title ctx; head_ref := head_ref ctx; body := body';
     user_login := user_login ctx; user_type := user_type ctx;
     owner := owner ctx; repo := repo ctx; number := number ctx |}.

(** Services of the platform that the action calls and does not define.
    - [RegExp_new base flags] is [new RegExp(base, flags)]: a compiled
      pattern, or the message of the [SyntaxError] it throws.
    - [RegExp_exec re s] is [re.exec(s)] on a pattern that was just built:
      [null], or element [0] of the match array (the matched text).
    - [JSON_stringify] is [JSON.stringify(context)]. *)
Class Platform := {
  RegExp : Type;
  RegExp_new : string -> string -> string + RegExp;
  RegExp_exec : RegExp -> string -> option string;
  JSON_stringify : PullRequestContext -> string
}.

(** ** Effects *)

(** The calls [run] makes to its collaborators. *)
Inductive Event :=
| Log (message : JsText)
| SetFailed (message : string)
| GetOctokit (token : string)
| PullsUpdate (owner repo : string) (pull_number : N) (title : string)
| PullsCreateReview (owner repo : string) (pull_number : N) (body event : string).

(** A computation either throws an [Error] (kept as its [message]) or
    returns a value, and records the calls it made until then. *)
Definition M (A : Type) : Type := (string + A) * list Event.

Definition ret {A} (a : A) : M A := (inr a, []).

Definition emit (e : Event) : M unit := (inr tt, [e]).

Definition bind {A B} (m : M A) (f : A -> M B) : M B :=
  match m with
  | (inl message, t) => (inl message, t)
  | (inr a, t) => let '(r, t') := f a in (r, t ++ t')
  end.

(** A step that may throw and calls no collaborator. *)
Definition lift {A} (r : string + A) : M A := (r, []).

Declare Scope action_scope.
Delimit Scope action_scope with action.
Notation "x <- m ;; k" := (bind m (fun x => k))
  (at level 100, m at next level, right associativity) : action_scope.
Notation "m ;; k" := (bind m (fun _ => k))
  (at level 100, right associativity) : action_scope.

(** [x === null] for the result of [exec]. *)
Definition is_null {A} (x : option A) : bool :=
  match x with None => true | Some _ => false end.

(** What an invocation amounts to. [run] returns nothing; the model tags
    each of its [return] statements with the outcome it stands for.
    [Unmarked] is the end of the [try] block, past the last [if]. *)
Inductive Source := Branch | Body.

Inductive Outcome :=
| Approved
| Exempted
| TitleUpdated (source : Source)
| Rejected (message : string)
| Unmarked.

(** ** The action *)

Local Open Scope action_scope.

Definition log (message : JsText) : M unit := emit (Log message).

Definition debug (label : string) (message : JsText) : M unit :=
  log "" ;;
  log ("[" +:+ JsString.toUpperCase label +:+ "]") ;;
  log message ;;
  log "".

Definition setFailed (message : string) : M unit := emit (SetFailed message).

(** [senderType === 'Bot' ? login.replace('[bot]', '') : login] *)
Definition sender_of (senderType login : string) : string :=
  if String.eqb senderType "Bot" then JsString.replace login "[bot]" "" else login.

(** The title sent to [pulls.update]. *)
Definition new_title (titleFormat ticketPrefix id title : string) : string :=
  JsString.replace
    (JsString.replace
       (JsString.replace titleFormat "%prefix%" ticketPrefix)
       "%id%" id)
    "%title%" title.

(** The two review comments, passed on as they are (the emoji at the end
    is kept as the bytes of its UTF-8 encoding). *)
Definition branch_notice : string :=
  "Hey! I noticed that your PR contained a reference to the ticket in the branch name but not in the title. I went ahead and updated that for you. Hope you don't mind! ☺️".

Definition body_notice : string :=
  "Hey! I noticed that your PR contained a reference to the ticket in the body but not in the title. I went ahead and updated that for you. Hope you don't mind! ☺️".

Section Action.

Context `{Platform}.
Variable inputs : gmap string string.

Local Open Scope action_scope.

(** [getInput(name, {required})] of the toolkit: [val] is the value supplied
    for the option, or the empty string when there is none; a required
    option with an empty [val] is an [Error]; otherwise the result is
    [val.trim()]. *)
Definition getInput (name : string) (required : bool) : string + string :=
  let val := default EmptyString (inputs !! name) in
  if required && negb (JsString.truthy val)
  then inl ("Input required and not supplied: " +:+ name)
  else inr (JsString.trim val).

(** [getOctokit(token)] of the toolkit: an [Error] for an empty token, and
    a client otherwise. The call is recorded when the client is built. *)
Definition getOctokit (token : string) : M unit :=
  if JsString.truthy token then emit (GetOctokit token)
  else lift (inl "Parameter token or opts.auth is required").

(** [value.match(pattern)] with a string [pattern]: the pattern is compiled
    without flags and executed once. *)
Definition string_match (value pattern : string) : string + option string :=
  match RegExp_new pattern EmptyString with
  | inl message => inl message
  | inr re => inr (RegExp_exec re value)
  end.

(** Helper function to retrieve ticket number from a string. *)
Definition extractId (value : string) : M (option string) :=
  pattern <- lift (getInput "ticketRegex" true) ;;
  result <- lift (string_match value pattern) ;;
  match result with
  | Some r0 => ret (Some r0)
  | None => ret None
  end.

(** The [try] block of [run]. *)
Definition run_try (ctx : PullRequestContext) : M Outcome :=
  debug "context" (JSON_stringify ctx) ;;
  let title := title ctx in
  titleRegexBase <- lift (getInput "titleRegex" true) ;;
  titleRegexFlags <- lift (getInput "titleRegexFlags" true) ;;
  titleRegex <- lift (RegExp_new titleRegexBase titleRegexFlags) ;;
  let titleCheck := RegExp_exec titleRegex title in
  token <- lift (getInput "token" true) ;;
  getOctokit token ;;
  let owner := owner ctx in
  let repo := repo ctx in
  let number := number ctx in
  let login := user_login ctx in
  let senderType := user_type ctx in
  let sender := sender_of senderType login in
  debug "title" title ;;
  if negb (is_null titleCheck) then
    debug "success" "Title includes a ticket ID" ;;
    ret Approved
  else
  quietInput <- lift (getInput "quiet" false) ;;
  let quiet := String.eqb quietInput "true" in
  exemptInput <- lift (getInput "exemptUsers" false) ;;
  let exemptUsers := map JsString.trim (JsString.split exemptInput ",") in
  debug "sender" sender ;;
  debug "sender type" senderType ;;
  debug "quiet mode" (if quiet then "true" else "false") ;;
  debug "exempt users" (JsString.join exemptUsers ",") ;;
  if JsString.truthy sender && JsString.includes exemptUsers sender then
    debug "success" "User is listed as exempt" ;;
    ret Exempted
  else
  ticketPrefix <- lift (getInput "ticketPrefix" false) ;;
  titleFormat <- lift (getInput "titleFormat" true) ;;
  let branch := head_ref ctx in
  branchRegexBase <- lift (getInput "branchRegex" true) ;;
  branchRegexFlags <- lift (getInput "branchRegexFlags" true) ;;
  branchRegex <- lift (RegExp_new branchRegexBase branchRegexFlags) ;;
  let branchCheck := RegExp_exec branchRegex branch in
  if negb (is_null branchCheck) then
    debug "success" "Branch name contains a reference to a ticket, updating title" ;;
    id <- extractId branch ;;
    match id with
    | None =>
        setFailed "Could not extract a ticket ID reference from the branch" ;;
        ret (Rejected "Could not extract a ticket ID reference from the branch")
    | Some id =>
        emit (PullsUpdate owner repo number (new_title titleFormat ticketPrefix id title)) ;;
        (if negb quiet
         then emit (PullsCreateReview owner repo number branch_notice "COMMENT")
         else ret tt) ;;
        ret (TitleUpdated Branch)
    end
  else
  match body ctx with
  | None =>
      debug "failure" "Body is undefined" ;;
      setFailed "Could not retrieve the Pull Request body" ;;
      ret (Rejected "Could not retrieve the Pull Request body")
  | Some body =>
      debug "body contents" body ;;
      bodyRegexBase <- lift (getInput "bodyRegex" true) ;;
      bodyRegexFlags <- lift (getInput "bodyRegexFlags" true) ;;
      bodyRegex <- lift (RegExp_new bodyRegexBase bodyRegexFlags) ;;
      let bodyCheck := RegExp_exec bodyRegex (to_string body) in
      match bodyCheck with
      | Some bodyCheck0 =>
          debug "success" "Body contains a reference to a ticket, updating title" ;;
          id <- extractId bodyCheck0 ;;
          match id with
          | None =>
              setFailed "Could not extract a ticket shorthand reference from the body" ;;
              ret (Rejected "Could not extract a ticket shorthand reference from the body")
          | Some id =>
              emit (PullsUpdate owner repo number (new_title titleFormat ticketPrefix id title)) ;;
              (if negb quiet
               then emit (PullsCreateReview owner repo number body_notice "COMMENT")
               else ret tt) ;;
              ret (TitleUpdated Body)
          end
      | None =>
          if is_null titleCheck && is_null branchCheck && is_null bodyCheck
          then
            debug "failure" "Title, branch, and body do not contain a reference to a ticket" ;;
            setFailed "No ticket was referenced in this pull request" ;;
            ret (Rejected "No ticket was referenced in this pull request")
          else ret Unmarked
      end
  end.

(** [run]: the [try] block, and the [catch] that turns an [Error] into
    [setFailed(error.message)]. The result is the outcome and the calls
    made, in order. *)
Definition run (ctx : PullRequestContext) : Outcome * list Event :=
  match run_try ctx with
  | (inr outcome, calls) => (outcome, calls)
  | (inl message, calls) => (Rejected message, calls ++ [SetFailed message])
  end.

End Action.

(** ** A small platform for worked examples

    Patterns are plain text searched as a substring, which is what
    ECMAScript does for a pattern without metacharacters; the flags [g], [m]
    and [s] do not change the first match of such a pattern. Everything else
    is refused with a message of its own, like a pattern that does not
    compile. *)

Module Plain.

Definition metachars : string := "\^$.*+?()[]{}|/".

Fixpoint all_chars (p : ascii -> bool) (s : string) : bool :=
  match s with
  | EmptyString => true
  | String c s' => p c && all_chars p s'
  end.

Fixpoint mem_char (c : ascii) (s : string) : bool :=
  match s with
  | EmptyString => false
  | String d s' => Ascii.eqb c d || mem_char c s'
  end.

Fixpoint no_repeat (s : string) : bool :=
  match s with
  | EmptyString => true
  | String c s' => negb (mem_char c s') && no_repeat s'
  end.

Definition compile (base flags : string) : string + string :=
  if negb (all_chars (fun c => mem_char c "gms") flags && no_repeat flags) then
    inl ("Invalid flags supplied to RegExp constructor '" +:+ flags +:+ "'")
  else if negb (all_chars (fun c => negb (mem_char c metachars)) base) then
    inl ("Invalid regular expression: /" +:+ base +:+ "/")
  else inr base.

Definition exec (pattern s : string) : option string :=
  match JsString.split_first pattern s with
  | Some _ => Some pattern
  | None => None
  end.

#[export] Instance platform : Platform := {|
  RegExp := string;
  RegExp_new := compile;
  RegExp_exec := exec;
  JSON_stringify := fun ctx => "{}"
|}.

Definition inputs : gmap string string :=
  list_to_map
    [("titleRegex", "TICK-"); ("titleRegexFlags", "g");
     ("branchRegex", "TICK-"); ("branchRegexFlags", "g");
     ("bodyRegex", "TICK-42"); ("bodyRegexFlags", "g");
     ("ticketRegex", "42"); ("ticketPrefix", "TICK");
     ("titleFormat", "[%prefix%-%id%] %title%");
     ("exemptUsers", "dependabot, renovate ,octocat");
     ("token", "t0k3n")].

(** The same configuration the way a workflow file may supply it, with
    white space around the values. *)
Definition padded : gmap string string :=
  list_to_map
    [("titleRegex", " TICK-"); ("titleRegexFlags", "g ");
     ("branchRegex", "TICK- "); ("branchRegexFlags", " g");
     ("bodyRegex", " TICK-42 "); ("bodyRegexFlags", "g");
     ("ticketRegex", "42 "); ("ticketPrefix", " TICK ");
     ("titleFormat", " [%prefix%-%id%] %title% ");
     ("exemptUsers", " dependabot, renovate ,octocat ");
     ("quiet", " true ");
     ("token", " t0k3n ")].

Definition pr : PullRequestContext := {|
  title := "Add login flow";
  head_ref := "feature/TICK-42-login";
  body := Some (JsStr "Implements TICK-42.");
  user_login := "alice";
  user_type := "User";
  owner := "glowwVideo";
  repo := "ticket-check-action";
  number := 7
|}.

Definition pr_titled : PullRequestContext := {|
  title := "TICK-42 Add login flow";
  head_ref := "feature/login";
  body := None;
  user_login := "alice";
  user_type := "User";
  owner := "glowwVideo";
  repo := "ticket-check-action";
  number := 8
|}.

Definition pr_bot : PullRequestContext := {|
  title := "Bump lodash";
  head_ref := "renovate/TICK-42-lodash";
  body := Some (JsStr "Updates lodash, see TICK-42.");
  user_login := "renovate[bot]";
  user_type := "Bot";
  owner := "glowwVideo";
  repo := "ticket-check-action";
  number := 9
|}.

Definition pr_branch_without_id : PullRequestContext := {|
  title := "Add login flow";
  head_ref := "feature/TICK-login";
  body := Some (JsStr "Implements TICK-42.");
  user_login := "alice";
  user_type := "User";
  owner := "glowwVideo";
  repo := "ticket-check-action";
  number := 10
|}.

Definition pr_described : PullRequestContext := {|
  title := "Add login flow";
  head_ref := "feature/login";
  body := Some (JsStr "Implements TICK-42.");
  user_login := "alice";
  user_type := "User";
  owner := "glowwVideo";
  repo := "ticket-check-action";
  number := 11
|}.

Definition pr_without_description : PullRequestContext := {|
  title := "Add login flow";
  head_ref := "feature/login";
  body := Some JsNull;
  user_login := "alice";
  user_type := "User";
  owner := "glowwVideo";
  repo := "ticket-check-action";
  number := 13
|}.

Definition pr_plain : PullRequestContext := {|
  title := "Add login flow";
  head_ref := "feature/login";
  body := Some (JsStr "Adds a login flow.");
  user_login := "alice";
  user_type := "User";
  owner := "glowwVideo";
  repo := "ticket-check-action";
  number := 12
|}.

End Plain.


(** ** Words of the specification, for comparison with the code *)

Module Spec.

(** [s] with its trailing [suffix] removed, when it ends with it. *)
Fixpoint strip_suffix (s suffix : string) : string :=
  if String.eqb s suffix then EmptyString
  else
    match s with
    | EmptyString => EmptyString
    | String c s' => String c (strip_suffix s' suffix)
    end.

(** Literal replacement of the first occurrence of [search]: the value is
    inserted as it is. *)
Definition replace_literal (s search value : string) : string :=
  match JsString.split_first search s with
  | None => s
  | Some (before, after) => before +:+ value +:+ after
  end.

(** The three placeholders of a title template. *)
Inductive Placeholder := Prefix | Id | Title.

Definition token (p : Placeholder) : string :=
  match p with
  | Prefix => "%prefix%"
  | Id => "%id%"
  | Title => "%title%"
  end.

(** The three replacements performed in a given order. *)
Definition substitute_in (order : list Placeholder)
    (titleFormat ticketPrefix id title : string) : string :=
  fold_left
    (fun s p =>
       JsString.replace s (token p)
         match p with Prefix => ticketPrefix | Id => id | Title => title end)
    order titleFormat.

(** [pat] occurs in [s], with [before] in front of it and [after] behind. *)
Definition occurrence (pat s before after : string) : Prop :=
  s = before +:+ pat +:+ after.

(** ... and no occurrence of [pat] in [s] starts earlier. *)
Definition first_occurrence (pat s before after : string) : Prop :=
  occurrence pat s before after /\
  forall before' after', occurrence pat s before' after' ->
    String.length before <= String.length before'.

Definition prepend (x : string) (cut : string * string) : string * string :=
  (x +:+ cut.1, cut.2).

(** A separator between two placeholders: text without [%] whose first
    character cannot continue a placeholder name. *)
Definition is_separator (s : string) : bool :=
  JsString.free_of "%" s &&
  match s with
  | EmptyString => false
  | String c _ =>
      negb (Ascii.eqb "p" c) && negb (Ascii.eqb "i" c) && negb (Ascii.eqb "t" c)
  end.

(** Replacing the first occurrence of [tok] in [s] by the text [v], if
    there is one, gives [s']. *)
Definition literal_step (tok v s s' : string) : Prop :=
  (exists before after,
      first_occurrence tok s before after /\ s' = before +:+ v +:+ after)
  \/ ((forall before after, ~ occurrence tok s before after) /\ s' = s).

End Spec.

(** The calls of each kind in a list of calls. *)
Definition updates (calls : list Event) : list string :=
  omap (fun e => match e with PullsUpdate _ _ _ t => Some t | _ => None end) calls.

Definition reviews (calls : list Event) : list string :=
  omap (fun e => match e with PullsCreateReview _ _ _ b _ => Some b | _ => None end) calls.

Definition failures (calls : list Event) : list string :=
  omap (fun e => match e with SetFailed m => Some m | _ => None end) calls.

Definition clients (calls : list Event) : list string :=
  omap (fun e => match e with GetOctokit t => Some t | _ => None end) calls.

(** The calls made by [debug label message]. *)
Definition debug_calls (label : string) (message : JsText) : list Event :=
  snd (debug label message).

(** ** The stages of [run], by name *)

Section Stages.

Context `{Platform}.
Variable inputs : gmap string string.

(** The option as it was supplied, the empty string when it was not. *)
Definition input (name : string) : string :=
  default EmptyString (inputs !! name).

(** The value [getInput] returns for an option when it does not throw. *)
Definition value (name : string) : string :=
  JsString.trim (input name).

(** The pattern built from a pair of required options: the two [getInput]
    calls and the [new RegExp] that come before each [exec]. *)
Definition pattern_of (base flags : string) : string + RegExp :=
  match getInput inputs base true with
  | inl message => inl message
  | inr b =>
      match getInput inputs flags true with
      | inl message => inl message
      | inr f => RegExp_new b f
      end
  end.

(** The result of building such a pattern and executing it on [s]. *)
Definition check (base flags s : string) : string + option string :=
  match pattern_of base flags with
  | inl message => inl message
  | inr re => inr (RegExp_exec re s)
  end.

Definition title_check (ctx : PullRequestContext) : string + option string :=
  check "titleRegex" "titleRegexFlags" (title ctx).

Definition branch_check (ctx : PullRequestContext) : string + option string :=
  check "branchRegex" "branchRegexFlags" (head_ref ctx).

Definition body_check (body : string) : string + option string :=
  check "bodyRegex" "bodyRegexFlags" body.

(** What [extractId] returns or throws. *)
Definition extracted (value : string) : string + option string :=
  match getInput inputs "ticketRegex" true with
  | inl message => inl message
  | inr pattern => string_match value pattern
  end.

Definition sender (ctx : PullRequestContext) : string :=
  sender_of (user_type ctx) (user_login ctx).

Definition exemptUsers : list string :=
  map JsString.trim (JsString.split (input "exemptUsers") ",").

Definition exempt (ctx : PullRequestContext) : bool :=
  JsString.truthy (sender ctx) && JsString.includes exemptUsers (sender ctx).

Definition quiet : bool := String.eqb (value "quiet") "true".

(** The client is built with [token]: it is what [getInput] returns for the
    option token, and it is not empty. *)
Definition client_token (token : string) : Prop :=
  getInput inputs "token" true = inr token /\ token <> EmptyString.

(** The run gets past the test of the title: the title pattern compiles and
    does not match, and the client is built with [token]. *)
Definition passes_title (ctx : PullRequestContext) (token : string) : Prop :=
  title_check ctx = inr None /\ client_token token.

(** ... and past the exemption, and reads the title format. *)
Definition passes_exemption (ctx : PullRequestContext)
    (token titleFormat : string) : Prop :=
  passes_title ctx token /\ exempt ctx = false /\
  getInput inputs "titleFormat" true = inr titleFormat.

(** ... and the branch pattern compiles and does not match. *)
Definition passes_branch (ctx : PullRequestContext)
    (token titleFormat : string) : Prop :=
  passes_exemption ctx token titleFormat /\ branch_check ctx = inr None.

(** The calls made up to the test of the title. *)
Definition title_calls (ctx : PullRequestContext) (token : string) : list Event :=
  debug_calls "context" (JSON_stringify ctx) ++ [GetOctokit token]
  ++ debug_calls "title" (title ctx).

(** The calls made from there up to the test of the exemption. *)
Definition exemption_calls (ctx : PullRequestContext) : list Event :=
  debug_calls "sender" (sender ctx)
  ++ debug_calls "sender type" (user_type ctx)
  ++ debug_calls "quiet mode" (if quiet then "true" else "false")
  ++ debug_calls "exempt users" (JsString.join exemptUsers ",").

(** The calls that announce a match in the branch name, and in the body. *)
Definition branch_found : list Event :=
  debug_calls "success" "Branch name contains a reference to a ticket, updating title".

Definition body_found (body : JsText) : list Event :=
  debug_calls "body contents" body
  ++ debug_calls "success" "Body contains a reference to a ticket, updating title".

(** The two requests of a title rewrite. *)
Definition update_call (ctx : PullRequestContext) (titleFormat id : string) : Event :=
  PullsUpdate (owner ctx) (repo ctx) (number ctx)
    (new_title titleFormat (value "ticketPrefix") id (title ctx)).

Definition review_call (ctx : PullRequestContext) (notice : string) : Event :=
  PullsCreateReview (owner ctx) (repo ctx) (number ctx) notice "COMMENT".

Definition rewrite_calls (ctx : PullRequestContext)
    (titleFormat id notice : string) : list Event :=
  update_call ctx titleFormat id
  :: (if quiet then [] else [review_call ctx notice]).

End Stages.

(** A failure is reported once, last, with the message of the outcome, and
    goes with no request to change the pull request; any other outcome
    reports none. *)
Definition well_reported (r : Outcome * list Event) : Prop :=
  match fst r with
  | Rejected message =>
      failures (snd r) = [message] /\ last (snd r) = Some (SetFailed message) /\
      updates (snd r) = [] /\ reviews (snd r) = []
  | Unmarked => False
  | _ => failures (snd r) = []
  end.

(** The run ends in the failure [e]: it is reported once and no change of
    the pull request has been requested. *)
Definition fails_with (r : Outcome * list Event) (e : string) : Prop :=
  fst r = Rejected e /\ failures (snd r) = [e] /\
  updates (snd r) = [] /\ reviews (snd r) = [].

(** The review comment of a title rewrite, by the place of the reference. *)
Definition notice_of (source : Source) : string :=
  match source with Branch => branch_notice | Body => body_notice end.

(** The messages [run] itself gives to [setFailed]. *)
Definition fixed_failures : list string :=
  ["Could not extract a ticket ID reference from the branch";
   "Could not retrieve the Pull Request body";
   "Could not extract a ticket shorthand reference from the body";
   "No ticket was referenced in this pull request"].

(** The first and the last element of a list changed by [f]. *)
Definition map_first {A} (f : A -> A) (l : list A) : list A :=
  match l with
  | [] => []
  | x :: l' => f x :: l'
  end.

Fixpoint map_last {A} (f : A -> A) (l : list A) : list A :=
  match l with
  | [] => []
  | [x] => [f x]
  | x :: l' => x :: map_last f l'
  end.

(** The options [run] and [extractId] read with [required: true], and all
    the options they read. *)
Definition required_options : list string :=
  ["titleRegex"; "titleRegexFlags"; "token"; "titleFormat"; "branchRegex";
   "branchRegexFlags"; "ticketRegex"; "bodyRegex"; "bodyRegexFlags"].

Definition read_options : list string :=
  required_options ++ ["quiet"; "exemptUsers"; "ticketPrefix"].

(** * Properties *)

(** ** Strings *)

Example replace_bot : JsString.replace "foo[bot]" "[bot]" "" = "foo".
Proof. reflexivity. Qed.

Example replace_dollar : JsString.replace "a%title%b" "%title%" "x$$y$&z$1" = "ax$y%title%z$1b".
Proof. reflexivity. Qed.

Example split_ex : JsString.split " a, b ,,c" "," = [" a"; " b "; ""; "c"].
Proof. reflexivity. Qed.

Example trim_ex : JsString.trim "  a b  " = "a b".
Proof. reflexivity. Qed.

Example upper_ex : JsString.toUpperCase "sender type" = "SENDER TYPE".
Proof. reflexivity. Qed.

Section StringFacts.

Import JsString Spec.

Lemma app_cons c s t : String c s +:+ t = String c (s +:+ t).
Proof. reflexivity. Qed.

Lemma app_empty_l t : EmptyString +:+ t = t.
Proof. reflexivity. Qed.

Lemma app_empty_r s : s +:+ EmptyString = s.
Proof. induction s as [|c s IH]; [done|]. by rewrite app_cons, IH. Qed.

Lemma app_assoc' (s t u : string) : (s +:+ t) +:+ u = s +:+ (t +:+ u).
Proof.
  induction s as [|c s IH]; [done|]. by rewrite !app_cons, IH.
Qed.

Lemma length_app' (s t : string) :
  String.length (s +:+ t) = String.length s + String.length t.
Proof.
  induction s as [|c s IH]; [done|]. rewrite app_cons. simpl. by rewrite IH.
Qed.

Lemma strip_prefix_app p s : strip_prefix p (p +:+ s) = Some s.
Proof.
  induction p as [|c p IH]; [by destruct s|].
  rewrite app_cons. simpl. by rewrite Ascii.eqb_refl.
Qed.

Lemma strip_prefix_Some p s r : strip_prefix p s = Some r -> s = p +:+ r.
Proof.
  revert s. induction p as [|c p IH]; intros s Hs.
  - destruct s; simpl in Hs; by simplify_eq.
  - destruct s as [|d s]; [done|]. simpl in Hs.
    destruct (Ascii.eqb c d) eqn:Hcd; [|done].
    apply Ascii.eqb_eq in Hcd as ->. rewrite app_cons. f_equal. by apply IH.
Qed.

Lemma strip_prefix_None p s r : strip_prefix p s = None -> s <> p +:+ r.
Proof. intros Hs ->. by rewrite strip_prefix_app in Hs. Qed.

Lemma split_first_unfold pat s :
  split_first pat s =
  match strip_prefix pat s with
  | Some rest => Some (EmptyString, rest)
  | None =>
      match s with
      | EmptyString => None
      | String c s' =>
          match split_first pat s' with
          | Some (before, after) => Some (String c before, after)
          | None => None
          end
      end
  end.
Proof. by destruct s. Qed.

Lemma split_first_occurrence pat s a b :
  split_first pat s = Some (a, b) -> occurrence pat s a b.
Proof.
  unfold occurrence. revert a. induction s as [|c s IH]; intros a;
    rewrite split_first_unfold;
    destruct (strip_prefix pat _) as [r|] eqn:Hp.
  - intros [= <- <-]. rewrite app_empty_l. by apply strip_prefix_Some.
  - done.
  - intros [= <- <-]. rewrite app_empty_l. by apply strip_prefix_Some.
  - destruct (split_first pat s) as [[a' b']|]; [|done].
    intros [= <- <-]. rewrite app_cons. f_equal. by apply IH.
Qed.

Lemma split_first_least pat s a b a' b' :
  split_first pat s = Some (a, b) -> occurrence pat s a' b' ->
  String.length a <= String.length a'.
Proof.
  unfold occurrence. revert a a'. induction s as [|c s IH]; intros a a';
    rewrite split_first_unfold;
    destruct (strip_prefix pat _) as [r|] eqn:Hp.
  - intros [= <- <-] _. simpl. lia.
  - done.
  - intros [= <- <-] _. simpl. lia.
  - destruct (split_first pat s) as [[a0 b0]|] eqn:Hs; [|done].
    intros [= <- <-] Hocc. destruct a' as [|d a'].
    + by apply strip_prefix_None with (r := b') in Hp.
    + rewrite app_cons in Hocc. injection Hocc as -> ->.
      simpl. apply le_n_S. by eapply IH.
Qed.

Lemma split_first_None pat s a b :
  split_first pat s = None -> ~ occurrence pat s a b.
Proof.
  unfold occurrence. revert a. induction s as [|c s IH]; intros a;
    rewrite split_first_unfold;
    destruct (strip_prefix pat _) as [r|] eqn:Hp; try done.
  - intros _ Hocc. destruct a; [|done].
    by apply strip_prefix_None with (r := b) in Hp.
  - destruct (split_first pat s) as [[a0 b0]|] eqn:Hs; [done|].
    intros _ Hocc. destruct a as [|d a].
    + by apply strip_prefix_None with (r := b) in Hp.
    + rewrite app_cons in Hocc. injection Hocc as -> ->. by eapply IH.
Qed.

Lemma app_eq_length_inv (a a' r r' : string) :
  a +:+ r = a' +:+ r' -> String.length a = String.length a' ->
  a = a' /\ r = r'.
Proof.
  revert a'. induction a as [|c a IH]; intros [|d a'] Heq Hlen; try done.
  rewrite !app_cons in Heq. injection Heq as -> Heq.
  destruct (IH a' Heq) as [-> ->]; [by injection Hlen|done].
Qed.

(** The first occurrence is the one [split_first] finds. *)
Lemma first_occurrence_split pat s a b :
  first_occurrence pat s a b <-> split_first pat s = Some (a, b).
Proof.
  split.
  - intros [Hocc Hleast].
    destruct (split_first pat s) as [[a0 b0]|] eqn:Hs.
    + pose proof (split_first_occurrence _ _ _ _ Hs) as Hocc0.
      pose proof (split_first_least _ _ _ _ _ _ Hs Hocc) as H1.
      pose proof (Hleast _ _ Hocc0) as H2.
      unfold occurrence in *. rewrite Hocc in Hocc0.
      apply app_eq_length_inv in Hocc0 as [-> Hr]; [|lia].
      by apply (inj (String.app pat)) in Hr as ->.
    + by apply split_first_None with (a := a) (b := b) in Hs.
  - intros Hs. split; [by apply split_first_occurrence|].
    intros a' b' Hocc. by eapply split_first_least.
Qed.

Lemma get_substitution_plain matched before after v :
  free_of "$" v = true -> get_substitution matched before after v = v.
Proof.
  induction v as [|c v IH]; [done|]. cbn -[Ascii.eqb].
  intros [Hc%negb_true_iff Hv]%andb_true_iff.
  rewrite Ascii.eqb_sym in Hc. rewrite Hc. by rewrite IH.
Qed.

(** A value without [$] is inserted as it is. *)
Lemma replace_plain s search v :
  free_of "$" v = true -> replace s search v = replace_literal s search v.
Proof.
  intros Hv. unfold replace, replace_literal.
  destruct (split_first search s) as [[a b]|]; [|done].
  by rewrite get_substitution_plain.
Qed.

Lemma replace_first_occurrence s search v a b :
  free_of "$" v = true -> first_occurrence search s a b ->
  replace s search v = a +:+ v +:+ b.
Proof.
  intros Hv Hs%first_occurrence_split. rewrite replace_plain by done.
  unfold replace_literal. by rewrite Hs.
Qed.

Lemma replace_no_occurrence s search v :
  (forall a b, ~ occurrence search s a b) -> replace s search v = s.
Proof.
  intros Hno. unfold replace.
  destruct (split_first search s) as [[a b]|] eqn:Hs; [|done].
  by apply split_first_occurrence, Hno in Hs.
Qed.

End StringFacts.

(** ** Searching for a placeholder in a template *)

Section Placeholders.

Import JsString Spec.

Local Arguments token : simpl never.

Lemma split_first_head_mismatch pat c s :
  strip_prefix pat (String c s) = None ->
  split_first pat (String c s) = prepend (String c EmptyString) <$> split_first pat s.
Proof.
  intros Hp. rewrite split_first_unfold, Hp.
  by destruct (split_first pat s) as [[a b]|].
Qed.

Lemma split_first_skip_free c pat x s :
  free_of c x = true ->
  split_first (String c pat) (x +:+ s) = prepend x <$> split_first (String c pat) s.
Proof.
  induction x as [|d x IH]; intros Hx.
  - rewrite app_empty_l. by destruct (split_first _ s) as [[a b]|].
  - cbn -[Ascii.eqb] in Hx. apply andb_true_iff in Hx as [Hd%negb_true_iff Hx].
    rewrite app_cons, split_first_head_mismatch.
    + rewrite IH by done. by destruct (split_first _ s) as [[a b]|].
    + cbn -[Ascii.eqb]. by rewrite Hd.
Qed.

Lemma split_first_found pat s :
  split_first pat (pat +:+ s) = Some (EmptyString, s).
Proof. by rewrite split_first_unfold, strip_prefix_app. Qed.

Lemma split_first_skip_token (tok other : Placeholder) sep s :
  tok <> other -> is_separator sep = true ->
  split_first (token tok) (token other +:+ sep +:+ s) =
  prepend (token other +:+ sep) <$> split_first (token tok) s.
Proof.
  intros Hne [Hfree Hsep]%andb_true_iff.
  destruct sep as [|c sep]; [done|].
  apply andb_true_iff in Hsep as [[Hp%negb_true_iff Hi%negb_true_iff]%andb_true_iff
                                    Ht%negb_true_iff].
  destruct tok, other; try done; unfold token;
    rewrite ?app_cons, ?app_empty_l;
    repeat (rewrite split_first_head_mismatch
              by (cbn -[Ascii.eqb]; rewrite ?Hp, ?Hi, ?Ht; reflexivity));
    rewrite <- app_cons, (split_first_skip_free "%" _ (String c sep) s Hfree);
    by destruct (split_first _ s) as [[a b]|].
Qed.

Lemma replace_found s tok v a b :
  free_of "$" v = true -> split_first tok s = Some (a, b) ->
  replace s tok v = a +:+ v +:+ b.
Proof.
  intros Hv Hs. rewrite replace_plain by done. unfold replace_literal.
  by rewrite Hs.
Qed.

End Placeholders.

Section Templates.

Import JsString Spec.

Local Arguments token : simpl never.

Lemma split_first_skip_text tok x s :
  free_of "%" x = true ->
  split_first (token tok) (x +:+ s) = prepend x <$> split_first (token tok) s.
Proof. intros Hx. destruct tok; by apply split_first_skip_free. Qed.

Lemma is_separator_free s : is_separator s = true -> free_of "%" s = true.
Proof. by intros [? _]%andb_true_iff. Qed.

(** One replacement in a template whose shape is known: cut at the
    placeholder, insert the value, and write the result as a chain again. *)
Ltac replace_step :=
  match goal with
  | |- context [replace ?s (token ?tok) ?v] =>
      lazymatch s with context [replace] => fail | _ => idtac end;
      rewrite (replace_plain s (token tok) v) by done;
      unfold replace_literal;
      repeat first
        [ rewrite split_first_skip_text by done
        | rewrite split_first_skip_token by done
        | rewrite split_first_found ];
      cbn [fmap option_fmap option_map prepend fst snd];
      rewrite ?app_assoc', ?app_empty_r, ?app_empty_l
  end.

(** In a template [s0 %prefix% s1 %id% s2 %title% s3] whose separators
    [s1] and [s2] cannot be mistaken for part of a placeholder, and for a
    prefix and an identifier without [%], the three replacements commute. *)
Lemma substitute_in_any_order s0 s1 s2 s3 p i t order :
  free_of "%" s0 = true -> is_separator s1 = true -> is_separator s2 = true ->
  free_of "%" p = true -> free_of "%" i = true ->
  free_of "$" p = true -> free_of "$" i = true -> free_of "$" t = true ->
  order ≡ₚ [Prefix; Id; Title] ->
  substitute_in order
    (s0 +:+ token Prefix +:+ s1 +:+ token Id +:+ s2 +:+ token Title +:+ s3) p i t
  = s0 +:+ p +:+ s1 +:+ i +:+ s2 +:+ t +:+ s3.
Proof.
  intros Hs0 Hs1 Hs2 Hp Hi Hp' Hi' Ht' Hperm.
  pose proof (is_separator_free _ Hs1) as Hf1.
  pose proof (is_separator_free _ Hs2) as Hf2.
  symmetry in Hperm. apply permutations_Permutation in Hperm.
  cbv in Hperm.
  repeat (apply elem_of_cons in Hperm as [->|Hperm]);
    [..|by apply elem_of_nil in Hperm];
    unfold substitute_in; cbn [fold_left];
    replace_step; replace_step; replace_step; reflexivity.
Qed.

End Templates.

(** ** The sender and the new title *)

Section SenderAndTitle.

Import JsString Spec.

Lemma replace_literal_step s tok v :
  free_of "$" v = true -> literal_step tok v s (replace s tok v).
Proof.
  intros Hv. destruct (split_first tok s) as [[a b]|] eqn:Hs.
  - left. exists a, b. split; [by apply first_occurrence_split|].
    by apply replace_found.
  - right. split; [intros a b; by apply split_first_None|].
    unfold replace. by rewrite Hs.
Qed.

Lemma eqb_longer (x s : string) c : String.eqb (String c x +:+ s) s = false.
Proof.
  apply String.eqb_neq. intros Heq. apply (f_equal String.length) in Heq.
  rewrite length_app' in Heq. simpl in Heq. lia.
Qed.

Lemma strip_suffix_unfold s suffix :
  strip_suffix s suffix =
  if String.eqb s suffix then EmptyString
  else
    match s with
    | EmptyString => EmptyString
    | String c s' => String c (strip_suffix s' suffix)
    end.
Proof. by destruct s. Qed.

Lemma strip_suffix_app x suffix : strip_suffix (x +:+ suffix) suffix = x.
Proof.
  induction x as [|c x IH]; rewrite strip_suffix_unfold.
  - by rewrite app_empty_l, String.eqb_refl.
  - by rewrite eqb_longer, app_cons, IH.
Qed.

(** C3, as the code has it: for an author of kind [Bot] the sender is the
    login with the first occurrence of the text "[bot]" removed, wherever it
    stands, and the login itself when it has no such occurrence; for any
    other kind the sender is the login unchanged. When the login is a name
    without '[' followed by "[bot]", this is the removal of the trailing
    suffix, and login "foo[bot]" of kind Bot yields "foo". *)
Theorem sender_removes_first_marker (senderType login : string) :
  (senderType <> "Bot" -> sender_of senderType login = login) /\
  (senderType = "Bot" ->
     (forall before after, first_occurrence "[bot]" login before after ->
        sender_of senderType login = before +:+ after) /\
     ((forall before after, ~ occurrence "[bot]" login before after) ->
        sender_of senderType login = login) /\
     (forall name, login = name +:+ "[bot]" -> free_of "[" name = true ->
        sender_of senderType login = name /\ strip_suffix login "[bot]" = name)) /\
  sender_of "Bot" "foo[bot]" = "foo".
Proof.
  split; [|split; [|reflexivity]].
  - intros Hne%String.eqb_neq. unfold sender_of. by rewrite Hne.
  - intros ->. unfold sender_of. simpl String.eqb. cbv iota.
    split; [|split].
    + intros a b Hocc%first_occurrence_split. unfold replace. by rewrite Hocc.
    + apply replace_no_occurrence.
    + intros name -> Hname. split; [|apply strip_suffix_app].
      assert (split_first "[bot]" (name +:+ "[bot]") = Some (name, EmptyString))
        as Hcut.
      { rewrite split_first_skip_free by done.
        rewrite <- (app_empty_r "[bot]") at 2. rewrite split_first_found.
        unfold prepend. simpl. by rewrite app_empty_r. }
      unfold replace. rewrite Hcut. simpl. by rewrite !app_empty_r.
Qed.

Lemma sender_removes_first_marker_witness :
  sender_of "Bot" "a[bot]b" = "a" +:+ "b".
Proof.
  destruct (proj1 (proj2 (sender_removes_first_marker "Bot" "a[bot]b")) eq_refl)
    as [Hfirst _].
  apply Hfirst, first_occurrence_split. reflexivity.
Defined.

(** C3 as stated fails: a "[bot]" that is not at the end of the login is
    removed, and the trailing one is kept when another stands before it. *)
Lemma sender_not_suffix_removal :
  sender_of "Bot" "a[bot]b" <> strip_suffix "a[bot]b" "[bot]".
Proof. vm_compute. discriminate. Qed.

Example sender_keeps_trailing_marker :
  sender_of "Bot" "[bot]x[bot]" = "x[bot]" /\
  strip_suffix "[bot]x[bot]" "[bot]" = "[bot]x".
Proof. split; reflexivity. Qed.

(** C6, as the code has it, for a prefix, an identifier and a title without
    [$]: the new title is the template after three replacements made in the
    order prefix, identifier, title, each in the text the previous one
    produced and each of the first occurrence of its placeholder only, with
    the value inserted as it is. The title is inserted last, so placeholders
    in it are not replaced. For such values the order of the three
    replacements is immaterial for a template of the shape
    [s0 %prefix% s1 %id% s2 %title% s3] with separators that cannot be part
    of a placeholder and a prefix and identifier without [%]. *)
Theorem new_title_in_order (titleFormat ticketPrefix id title : string) :
  free_of "$" ticketPrefix = true -> free_of "$" id = true ->
  free_of "$" title = true ->
  (exists u v,
      literal_step "%prefix%" ticketPrefix titleFormat u /\
      literal_step "%id%" id u v /\
      literal_step "%title%" title v (new_title titleFormat ticketPrefix id title))
  /\ new_title titleFormat ticketPrefix id title
     = substitute_in [Prefix; Id; Title] titleFormat ticketPrefix id title
  /\ (forall s0 s1 s2 s3 order,
        titleFormat =
          s0 +:+ "%prefix%" +:+ s1 +:+ "%id%" +:+ s2 +:+ "%title%" +:+ s3 ->
        free_of "%" s0 = true -> is_separator s1 = true -> is_separator s2 = true ->
        free_of "%" ticketPrefix = true -> free_of "%" id = true ->
        order ≡ₚ [Prefix; Id; Title] ->
        substitute_in order titleFormat ticketPrefix id title
        = s0 +:+ ticketPrefix +:+ s1 +:+ id +:+ s2 +:+ title +:+ s3
        /\ new_title titleFormat ticketPrefix id title
           = s0 +:+ ticketPrefix +:+ s1 +:+ id +:+ s2 +:+ title +:+ s3)
  /\ new_title "%prefix%-%id%: %title%" "JIRA" "1234" "Fix bug" = "JIRA-1234: Fix bug"
  /\ new_title "%prefix%-%id%: %title%" "JIRA" "1234" "Fix %id% bug"
     = "JIRA-1234: Fix %id% bug".
Proof.
  intros Hp Hi Ht. split; [|split; [reflexivity|split; [|split; reflexivity]]].
  - eexists _, _. unfold new_title.
    split; [|split]; by apply replace_literal_step.
  - intros s0 s1 s2 s3 order -> Hs0 Hs1 Hs2 Hp' Hi' Hperm. split.
    + by apply (substitute_in_any_order s0 s1 s2 s3).
    + by apply (substitute_in_any_order s0 s1 s2 s3 _ _ _ [Prefix; Id; Title]).
Qed.

Lemma new_title_in_order_witness :
  substitute_in [Title; Id; Prefix] "[%prefix%-%id%] %title%" "TICK" "42" "Add login flow"
  = "[" +:+ "TICK" +:+ "-" +:+ "42" +:+ "] " +:+ "Add login flow" +:+ "".
Proof.
  pose proof (new_title_in_order
                "[%prefix%-%id%] %title%" "TICK" "42" "Add login flow"
                eq_refl eq_refl eq_refl) as (_ & _ & Hshape & _).
  assert ([Title; Id; Prefix] ≡ₚ [Prefix; Id; Title]) as Hperm.
  { etrans; [apply perm_swap|]. etrans; [apply perm_skip, perm_swap|].
    apply perm_swap. }
  exact (proj1 (Hshape "[" "-" "] " "" [Title; Id; Prefix]
                  eq_refl eq_refl eq_refl eq_refl eq_refl eq_refl Hperm)).
Defined.

(** C6 as stated fails: the order of the replacements matters when a value
    brings a placeholder with it. *)
Lemma new_title_order_matters :
  substitute_in [Id; Prefix; Title] "%prefix%-%id%" "%id%" "7" "t"
  <> new_title "%prefix%-%id%" "%id%" "7" "t".
Proof. vm_compute. discriminate. Qed.

Example new_title_picks_up_prefix_text :
  new_title "%prefix%-%id%" "%id%" "7" "t" = "7-%id%" /\
  substitute_in [Id; Prefix; Title] "%prefix%-%id%" "%id%" "7" "t" = "%id%-7".
Proof. split; reflexivity. Qed.

(** [$] in a value is not inserted as it is. *)
Example new_title_dollar :
  new_title "%title%" "" "" "Save US$$ 5 ($&)" = "Save US$ 5 (%title%)".
Proof. reflexivity. Qed.

End SenderAndTitle.

(** ** Splitting and trimming *)

Section TrimAndSplit.

Import JsString.

Local Arguments Ascii.eqb : simpl never.
Local Arguments is_white_space : simpl never.

Lemma split_unfold s sep :
  split s sep =
  match s with
  | EmptyString => [EmptyString]
  | String c s' =>
      if Ascii.eqb c sep then EmptyString :: split s' sep
      else
        match split s' sep with
        | [] => [String c EmptyString]
        | piece :: pieces => String c piece :: pieces
        end
  end.
Proof. by destruct s. Qed.

Lemma split_not_nil s sep : split s sep <> [].
Proof.
  destruct s as [|c s]; [done|]. rewrite split_unfold.
  destruct (Ascii.eqb c sep); [done|]. by destruct (split s sep).
Qed.

Lemma join_cons_char c piece pieces sep :
  join (String c piece :: pieces) sep = String c (join (piece :: pieces) sep).
Proof. by destruct pieces. Qed.

Lemma join_cons_cons x y l sep :
  join (x :: y :: l) sep = x +:+ sep +:+ join (y :: l) sep.
Proof. reflexivity. Qed.

Lemma join_split s sep : join (split s sep) (String sep EmptyString) = s.
Proof.
  induction s as [|c s IH]; [done|]. rewrite split_unfold.
  destruct (Ascii.eqb_spec c sep) as [->|Hne].
  - pose proof (split_not_nil s sep) as Hnil.
    destruct (split s sep) as [|piece pieces]; [done|].
    rewrite join_cons_cons, IH. reflexivity.
  - pose proof (split_not_nil s sep) as Hnil.
    destruct (split s sep) as [|piece pieces]; [done|].
    by rewrite join_cons_char, IH.
Qed.

Lemma split_pieces_free s sep piece :
  piece ∈ split s sep -> free_of sep piece = true.
Proof.
  revert piece. induction s as [|c s IH]; intros piece.
  - by intros ->%list_elem_of_singleton.
  - rewrite split_unfold. destruct (Ascii.eqb_spec c sep) as [->|Hne].
    + intros [->|Hin]%elem_of_cons; [done|by apply IH].
    + pose proof (split_not_nil s sep) as Hnil.
      destruct (split s sep) as [|p ps]; [done|].
      intros [->|Hin]%elem_of_cons.
      * cbn [free_of]. rewrite (IH p) by apply list_elem_of_here.
        rewrite Ascii.eqb_sym. by apply Ascii.eqb_neq in Hne as ->.
      * apply IH. by apply list_elem_of_further.
Qed.

Lemma trim_start_idemp s : trim_start (trim_start s) = trim_start s.
Proof.
  induction s as [|c s IH]; [done|]. cbn [trim_start].
  destruct (is_white_space c) eqn:Hc; [done|]. cbn [trim_start]. by rewrite Hc.
Qed.

Lemma trim_end_unfold c s :
  trim_end (String c s) =
  match trim_end s with
  | EmptyString => if is_white_space c then EmptyString else String c EmptyString
  | r => String c r
  end.
Proof. reflexivity. Qed.

Lemma trim_end_idemp s : trim_end (trim_end s) = trim_end s.
Proof.
  induction s as [|c s IH]; [done|]. rewrite trim_end_unfold.
  destruct (trim_end s) as [|d r] eqn:Hs.
  - destruct (is_white_space c) eqn:Hc; [done|].
    rewrite trim_end_unfold. cbn [trim_end]. by rewrite Hc.
  - rewrite trim_end_unfold. by rewrite IH.
Qed.

Lemma trim_start_trim_end s :
  trim_start (trim_end (trim_start s)) = trim_end (trim_start s).
Proof.
  induction s as [|c s IH]; [done|]. cbn [trim_start].
  destruct (is_white_space c) eqn:Hc; [done|]. rewrite trim_end_unfold.
  destruct (trim_end s) as [|d r]; cbn [trim_start]; rewrite ?Hc;
    cbn [trim_start]; by rewrite ?Hc.
Qed.

Lemma trim_idemp s : trim (trim s) = trim s.
Proof. unfold trim. by rewrite trim_start_trim_end, trim_end_idemp. Qed.

Lemma free_of_trim_start c s : free_of c s = true -> free_of c (trim_start s) = true.
Proof.
  induction s as [|d s IH]; [done|]. cbn [trim_start free_of].
  intros [Hd Hs]%andb_true_iff. destruct (is_white_space d); [by apply IH|].
  cbn [free_of]. by rewrite Hd, Hs.
Qed.

Lemma free_of_trim_end c s : free_of c s = true -> free_of c (trim_end s) = true.
Proof.
  induction s as [|d s IH]; [done|]. cbn [free_of].
  intros [Hd Hs]%andb_true_iff. rewrite trim_end_unfold.
  specialize (IH Hs). destruct (trim_end s) as [|d' r].
  - destruct (is_white_space d); [done|]. cbn [free_of]. by rewrite Hd.
  - cbn [free_of] in *. by rewrite Hd, IH.
Qed.

Lemma free_of_trim c s : free_of c s = true -> free_of c (trim s) = true.
Proof. intros Hs. by apply free_of_trim_end, free_of_trim_start. Qed.

Lemma trim_end_empty_start s : trim_end s = EmptyString -> trim_start s = EmptyString.
Proof.
  induction s as [|c s IH]; [done|]. rewrite trim_end_unfold. cbn [trim_start].
  destruct (trim_end s) as [|d r]; [|done].
  destruct (is_white_space c); [intros _; by apply IH|done].
Qed.

Lemma trim_trim_start s : trim (trim_start s) = trim s.
Proof. unfold trim. by rewrite trim_start_idemp. Qed.

Lemma trim_trim_end s : trim (trim_end s) = trim s.
Proof.
  unfold trim. induction s as [|c s IH]; [done|].
  rewrite trim_end_unfold. cbn [trim_start].
  destruct (is_white_space c) eqn:Hc.
  - destruct (trim_end s) as [|d r] eqn:Hs.
    + cbn. by rewrite (trim_end_empty_start s Hs).
    + cbn [trim_start]. by rewrite Hc.
  - destruct (trim_end s) as [|d r] eqn:Hs; cbn [trim_start]; rewrite Hc.
    + rewrite !trim_end_unfold, Hs. cbn. by rewrite Hc.
    + rewrite <- Hs. rewrite (trim_end_unfold c (trim_end s)), trim_end_idemp.
      rewrite (trim_end_unfold c s). by rewrite Hs.
Qed.

Lemma map_first_fmap {A B} (g : A -> B) (f : A -> A) l :
  (forall x, g (f x) = g x) -> map g (map_first f l) = map g l.
Proof. intros Hgf. destruct l as [|x l]; [done|]. cbn. by rewrite Hgf. Qed.

Lemma map_last_fmap {A B} (g : A -> B) (f : A -> A) l :
  (forall x, g (f x) = g x) -> map g (map_last f l) = map g l.
Proof.
  intros Hgf. induction l as [|x l IH]; [done|].
  destruct l as [|y l]; [cbn; by rewrite Hgf|].
  change (map_last f (x :: y :: l)) with (x :: map_last f (y :: l)).
  cbn [map]. f_equal. apply IH.
Qed.

Lemma split_cons c s sep :
  split (String c s) sep =
  if Ascii.eqb c sep then EmptyString :: split s sep
  else map_first (String c) (split s sep).
Proof.
  rewrite split_unfold. destruct (Ascii.eqb c sep); [done|].
  pose proof (split_not_nil s sep). by destruct (split s sep).
Qed.

(** Trimming the start of a string trims the start of its first piece. *)
Lemma split_trim_start s sep :
  is_white_space sep = false ->
  split (trim_start s) sep = map_first trim_start (split s sep).
Proof.
  intros Hsep. induction s as [|c s IH]; [done|].
  cbn [trim_start]. destruct (is_white_space c) eqn:Hc.
  - rewrite IH, split_cons.
    destruct (Ascii.eqb_spec c sep) as [->|_]; [congruence|].
    pose proof (split_not_nil s sep).
    destruct (split s sep) as [|p ps]; [done|]. cbn. by rewrite Hc.
  - rewrite split_cons. destruct (Ascii.eqb c sep); [done|].
    pose proof (split_not_nil s sep).
    destruct (split s sep) as [|p ps]; [done|]. cbn. by rewrite Hc.
Qed.

Lemma split_blank s sep :
  is_white_space sep = false -> trim_end s = EmptyString -> split s sep = [s].
Proof.
  intros Hsep. induction s as [|c s IH]; [done|].
  rewrite trim_end_unfold. destruct (trim_end s) as [|d r]; [|done].
  destruct (is_white_space c) eqn:Hc; [|done]. intros _.
  rewrite split_cons. destruct (Ascii.eqb_spec c sep) as [->|_]; [congruence|].
  by rewrite IH.
Qed.

(** Trimming the end of a string trims the end of its last piece. *)
Lemma split_trim_end s sep :
  is_white_space sep = false ->
  split (trim_end s) sep = map_last trim_end (split s sep).
Proof.
  intros Hsep. induction s as [|c s IH]; [done|].
  rewrite trim_end_unfold. destruct (trim_end s) as [|d r] eqn:Hs.
  - rewrite (split_cons c s), (split_blank s sep Hsep Hs).
    destruct (is_white_space c) eqn:Hc.
    + destruct (Ascii.eqb_spec c sep) as [->|_]; [congruence|].
      cbn [map_first map_last]. by rewrite trim_end_unfold, Hs, Hc.
    + rewrite split_cons. destruct (Ascii.eqb c sep).
      * cbn [map_last split]. by rewrite Hs.
      * cbn [map_first map_last split]. by rewrite trim_end_unfold, Hs, Hc.
  - rewrite (split_cons c (String d r)), (split_cons c s), IH.
    destruct (Ascii.eqb c sep).
    + pose proof (split_not_nil s sep).
      by destruct (split s sep) as [|p ps].
    + pose proof (split_not_nil s sep) as Hnil.
      destruct (split s sep) as [|p ps] eqn:Hsplit; [done|].
      destruct ps as [|q ps].
      * cbn [map_first map_last]. rewrite trim_end_unfold.
        assert (s = p) as <-.
        { rewrite <- (join_split s sep), Hsplit. reflexivity. }
        by rewrite Hs.
      * reflexivity.
Qed.

(** Trimming a string before it is split changes none of the trimmed
    pieces. *)
Lemma split_trim s sep :
  is_white_space sep = false ->
  map trim (split (trim s) sep) = map trim (split s sep).
Proof.
  intros Hsep. unfold trim at 2.
  rewrite split_trim_end, split_trim_start by done.
  rewrite map_last_fmap by apply trim_trim_end.
  by rewrite map_first_fmap by apply trim_trim_start.
Qed.

End TrimAndSplit.

(** ** The paths through [run] *)

Section RunFacts.

Context `{Platform}.
Variable inputs : gmap string string.

Implicit Types (ctx : PullRequestContext) (e tok fmt m id : string).

Lemma getInput_optional name : getInput inputs name false = inr (value inputs name).
Proof. reflexivity. Qed.

Lemma getInput_required name :
  getInput inputs name true =
  if JsString.truthy (input inputs name) then inr (value inputs name)
  else inl ("Input required and not supplied: " +:+ name).
Proof. unfold getInput, value, input. by destruct (JsString.truthy _). Qed.

Lemma truthy_nonempty s : JsString.truthy s = true <-> s <> EmptyString.
Proof. by destruct s. Qed.

Lemma truthy_empty s : JsString.truthy s = false <-> s = EmptyString.
Proof. by destruct s. Qed.

(** The exempt list of the run, made from the trimmed option, is the list of
    the trimmed pieces of the option as it was supplied. *)
Lemma exemptUsers_value :
  map JsString.trim (JsString.split (value inputs "exemptUsers") ",")
  = exemptUsers inputs.
Proof. unfold value, exemptUsers. by apply split_trim. Qed.

Lemma getInput_missing name :
  input inputs name = EmptyString ->
  getInput inputs name true = inl ("Input required and not supplied: " +:+ name).
Proof. intros Hin. by rewrite getInput_required, Hin. Qed.

Lemma pattern_of_inr base flags re :
  pattern_of inputs base flags = inr re ->
  exists b f, getInput inputs base true = inr b /\
              getInput inputs flags true = inr f /\ RegExp_new b f = inr re.
Proof.
  unfold pattern_of. intros Hp.
  destruct (getInput inputs base true) as [|b]; [done|].
  destruct (getInput inputs flags true) as [|f]; [done|]. by exists b, f.
Qed.

Lemma pattern_of_inl base flags e :
  pattern_of inputs base flags = inl e ->
  getInput inputs base true = inl e \/
  (exists b, getInput inputs base true = inr b /\
             getInput inputs flags true = inl e) \/
  (exists b f, getInput inputs base true = inr b /\
               getInput inputs flags true = inr f /\ RegExp_new b f = inl e).
Proof.
  unfold pattern_of. intros Hp.
  destruct (getInput inputs base true) as [|b]; [left; congruence|].
  destruct (getInput inputs flags true) as [|f].
  - right; left. exists b. split; [reflexivity|congruence].
  - right; right. by exists b, f.
Qed.

Lemma check_inr base flags s r :
  check inputs base flags s = inr r ->
  exists b f re, getInput inputs base true = inr b /\
                 getInput inputs flags true = inr f /\
                 RegExp_new b f = inr re /\ RegExp_exec re s = r.
Proof.
  unfold check. destruct (pattern_of inputs base flags) as [|re] eqn:Hp; [done|].
  intros [= <-]. apply pattern_of_inr in Hp as (b & f & ? & ? & ?).
  by exists b, f, re.
Qed.

Lemma check_inl base flags s e :
  check inputs base flags s = inl e -> pattern_of inputs base flags = inl e.
Proof.
  unfold check. destruct (pattern_of inputs base flags); [congruence|done].
Qed.

Lemma extracted_inr value r :
  extracted inputs value = inr r ->
  exists pattern re, getInput inputs "ticketRegex" true = inr pattern /\
                     RegExp_new pattern EmptyString = inr re /\
                     RegExp_exec re value = r.
Proof.
  unfold extracted, string_match.
  destruct (getInput inputs "ticketRegex" true) as [|pattern]; [done|].
  destruct (RegExp_new pattern "") as [|re] eqn:Hre; [done|].
  intros [= <-]. by exists pattern, re.
Qed.

Lemma extracted_inl value e :
  extracted inputs value = inl e ->
  getInput inputs "ticketRegex" true = inl e \/
  exists pattern, getInput inputs "ticketRegex" true = inr pattern /\
                  RegExp_new pattern EmptyString = inl e.
Proof.
  unfold extracted, string_match.
  destruct (getInput inputs "ticketRegex" true) as [|pattern]; [left; congruence|].
  destruct (RegExp_new pattern "") as [|re] eqn:Hre; [|done].
  intros [= <-]. right. by exists pattern.
Qed.

Local Arguments getInput : simpl never.
Local Arguments input : simpl never.
Local Arguments value : simpl never.
Local Arguments exemptUsers : simpl never.
Local Arguments to_string : simpl never.
Local Arguments new_title : simpl never.
Local Arguments sender_of : simpl never.
Local Arguments JsString.truthy : simpl never.
Local Arguments JsString.includes : simpl never.
Local Arguments JsString.trim : simpl never.
Local Arguments JsString.split : simpl never.
Local Arguments JsString.join : simpl never.
Local Arguments String.eqb : simpl never.

(** Take the named stages in the hypotheses apart, down to the calls of
    [run] they stand for. *)
Ltac unpack :=
  repeat match goal with
    | E : passes_branch _ _ _ _ |- _ => destruct E as [? ?]
    | E : passes_exemption _ _ _ _ |- _ => destruct E as (? & ? & ?)
    | E : passes_title _ _ _ |- _ => destruct E as [? ?]
    | E : client_token _ _ |- _ => destruct E as [? ?]
    | E : ?tok <> EmptyString |- _ => apply truthy_nonempty in E
    | E : ?tok = EmptyString |- _ => apply truthy_empty in E
    | E : title_check _ _ = _ |- _ => unfold title_check in E
    | E : branch_check _ _ = _ |- _ => unfold branch_check in E
    | E : body_check _ _ = _ |- _ => unfold body_check in E
    | E : check _ _ _ _ = inr _ |- _ =>
        apply check_inr in E as (? & ? & ? & ? & ? & ? & ?)
    | E : check _ _ _ _ = inl _ |- _ => apply check_inl in E
    | E : pattern_of _ _ _ = inr _ |- _ =>
        apply pattern_of_inr in E as (? & ? & ? & ? & ?)
    | E : pattern_of _ _ _ = inl _ |- _ =>
        apply pattern_of_inl in E as [?|[(? & ? & ?)|(? & ? & ? & ? & ?)]]
    | E : extracted _ _ = inr _ |- _ =>
        apply extracted_inr in E as (? & ? & ? & ? & ?)
    | E : extracted _ _ = inl _ |- _ =>
        apply extracted_inl in E as [?|(? & ? & ?)]
    | E : exempt _ _ = _ |- _ => unfold exempt, sender in E
    end.

(** Run the next statement, using what is known of its result. *)
Ltac run_step :=
  first
    [ rewrite getInput_optional
    | rewrite exemptUsers_value
    | match goal with E : ?l = _ |- context [?l] => rewrite E end ];
  cbn.

Ltac run_path :=
  intros; unpack; unfold run, run_try, extractId, string_match, getOctokit; cbn;
  repeat run_step;
  unfold title_calls, exemption_calls, rewrite_calls, update_call, review_call,
    sender, quiet;
  try reflexivity.

Lemma run_title_error ctx e :
  title_check inputs ctx = inl e ->
  run inputs ctx =
    (Rejected e, debug_calls "context" (JSON_stringify ctx) ++ [SetFailed e]).
Proof. run_path. Qed.

Lemma run_token_error ctx r e :
  title_check inputs ctx = inr r -> getInput inputs "token" true = inl e ->
  run inputs ctx =
    (Rejected e, debug_calls "context" (JSON_stringify ctx) ++ [SetFailed e]).
Proof. run_path. Qed.

Lemma run_client_error ctx r tok :
  title_check inputs ctx = inr r -> getInput inputs "token" true = inr tok ->
  tok = EmptyString ->
  run inputs ctx =
    (Rejected "Parameter token or opts.auth is required",
     debug_calls "context" (JSON_stringify ctx)
     ++ [SetFailed "Parameter token or opts.auth is required"]).
Proof. run_path. Qed.

Lemma run_approved ctx m tok :
  title_check inputs ctx = inr (Some m) -> client_token inputs tok ->
  run inputs ctx =
    (Approved,
     title_calls ctx tok ++ debug_calls "success" "Title includes a ticket ID").
Proof. run_path. Qed.

Lemma run_exempted ctx tok :
  passes_title inputs ctx tok -> exempt inputs ctx = true ->
  run inputs ctx =
    (Exempted,
     title_calls ctx tok ++ exemption_calls inputs ctx
     ++ debug_calls "success" "User is listed as exempt").
Proof. run_path. Qed.

Lemma run_titleFormat_error ctx tok e :
  passes_title inputs ctx tok -> exempt inputs ctx = false ->
  getInput inputs "titleFormat" true = inl e ->
  run inputs ctx =
    (Rejected e,
     title_calls ctx tok ++ exemption_calls inputs ctx ++ [SetFailed e]).
Proof. run_path. Qed.

Lemma run_branch_error ctx tok fmt e :
  passes_exemption inputs ctx tok fmt -> branch_check inputs ctx = inl e ->
  run inputs ctx =
    (Rejected e,
     title_calls ctx tok ++ exemption_calls inputs ctx ++ [SetFailed e]).
Proof. run_path. Qed.

Lemma run_branch_extract_error ctx tok fmt m e :
  passes_exemption inputs ctx tok fmt -> branch_check inputs ctx = inr (Some m) ->
  extracted inputs (head_ref ctx) = inl e ->
  run inputs ctx =
    (Rejected e,
     title_calls ctx tok ++ exemption_calls inputs ctx ++ branch_found
     ++ [SetFailed e]).
Proof. run_path. Qed.

Lemma run_branch_no_id ctx tok fmt m :
  passes_exemption inputs ctx tok fmt -> branch_check inputs ctx = inr (Some m) ->
  extracted inputs (head_ref ctx) = inr None ->
  run inputs ctx =
    (Rejected "Could not extract a ticket ID reference from the branch",
     title_calls ctx tok ++ exemption_calls inputs ctx ++ branch_found
     ++ [SetFailed "Could not extract a ticket ID reference from the branch"]).
Proof. run_path. Qed.

Lemma run_branch_updated ctx tok fmt m id :
  passes_exemption inputs ctx tok fmt -> branch_check inputs ctx = inr (Some m) ->
  extracted inputs (head_ref ctx) = inr (Some id) ->
  run inputs ctx =
    (TitleUpdated Branch,
     title_calls ctx tok ++ exemption_calls inputs ctx ++ branch_found
     ++ rewrite_calls inputs ctx fmt id branch_notice).
Proof. run_path. by destruct (String.eqb _ _). Qed.

Lemma run_no_body ctx tok fmt :
  passes_branch inputs ctx tok fmt -> body ctx = None ->
  run inputs ctx =
    (Rejected "Could not retrieve the Pull Request body",
     title_calls ctx tok ++ exemption_calls inputs ctx
     ++ debug_calls "failure" "Body is undefined"
     ++ [SetFailed "Could not retrieve the Pull Request body"]).
Proof. run_path. Qed.

Lemma run_body_error ctx tok fmt b e :
  passes_branch inputs ctx tok fmt -> body ctx = Some b ->
  body_check inputs (to_string b) = inl e ->
  run inputs ctx =
    (Rejected e,
     title_calls ctx tok ++ exemption_calls inputs ctx
     ++ debug_calls "body contents" b ++ [SetFailed e]).
Proof. run_path. Qed.

Lemma run_body_extract_error ctx tok fmt b m e :
  passes_branch inputs ctx tok fmt -> body ctx = Some b ->
  body_check inputs (to_string b) = inr (Some m) -> extracted inputs m = inl e ->
  run inputs ctx =
    (Rejected e,
     title_calls ctx tok ++ exemption_calls inputs ctx ++ body_found b
     ++ [SetFailed e]).
Proof. run_path. Qed.

Lemma run_body_no_id ctx tok fmt b m :
  passes_branch inputs ctx tok fmt -> body ctx = Some b ->
  body_check inputs (to_string b) = inr (Some m) -> extracted inputs m = inr None ->
  run inputs ctx =
    (Rejected "Could not extract a ticket shorthand reference from the body",
     title_calls ctx tok ++ exemption_calls inputs ctx ++ body_found b
     ++ [SetFailed "Could not extract a ticket shorthand reference from the body"]).
Proof. run_path. Qed.

Lemma run_body_updated ctx tok fmt b m id :
  passes_branch inputs ctx tok fmt -> body ctx = Some b ->
  body_check inputs (to_string b) = inr (Some m) -> extracted inputs m = inr (Some id) ->
  run inputs ctx =
    (TitleUpdated Body,
     title_calls ctx tok ++ exemption_calls inputs ctx ++ body_found b
     ++ rewrite_calls inputs ctx fmt id body_notice).
Proof. run_path. by destruct (String.eqb _ _). Qed.

Lemma run_no_reference ctx tok fmt b :
  passes_branch inputs ctx tok fmt -> body ctx = Some b ->
  body_check inputs (to_string b) = inr None ->
  run inputs ctx =
    (Rejected "No ticket was referenced in this pull request",
     title_calls ctx tok ++ exemption_calls inputs ctx
     ++ debug_calls "body contents" b
     ++ debug_calls "failure"
          "Title, branch, and body do not contain a reference to a ticket"
     ++ [SetFailed "No ticket was referenced in this pull request"]).
Proof. run_path. Qed.



(** *** The decision tree *)

(** Every run takes one of sixteen paths; a property of all runs is proved
    path by path. *)
Lemma run_cases ctx (P : Outcome * list Event -> Prop) :
  (forall e, title_check inputs ctx = inl e ->
     P (Rejected e, debug_calls "context" (JSON_stringify ctx) ++ [SetFailed e])) ->
  (forall r e,
     title_check inputs ctx = inr r -> getInput inputs "token" true = inl e ->
     P (Rejected e, debug_calls "context" (JSON_stringify ctx) ++ [SetFailed e])) ->
  (forall r,
     title_check inputs ctx = inr r ->
     getInput inputs "token" true = inr EmptyString ->
     P (Rejected "Parameter token or opts.auth is required",
        debug_calls "context" (JSON_stringify ctx)
        ++ [SetFailed "Parameter token or opts.auth is required"])) ->
  (forall m tok,
     title_check inputs ctx = inr (Some m) -> client_token inputs tok ->
     P (Approved,
        title_calls ctx tok ++ debug_calls "success" "Title includes a ticket ID")) ->
  (forall tok,
     passes_title inputs ctx tok -> exempt inputs ctx = true ->
     P (Exempted,
        title_calls ctx tok ++ exemption_calls inputs ctx
        ++ debug_calls "success" "User is listed as exempt")) ->
  (forall tok e,
     passes_title inputs ctx tok -> exempt inputs ctx = false ->
     getInput inputs "titleFormat" true = inl e ->
     P (Rejected e,
        title_calls ctx tok ++ exemption_calls inputs ctx ++ [SetFailed e])) ->
  (forall tok fmt e,
     passes_exemption inputs ctx tok fmt -> branch_check inputs ctx = inl e ->
     P (Rejected e,
        title_calls ctx tok ++ exemption_calls inputs ctx ++ [SetFailed e])) ->
  (forall tok fmt m e,
     passes_exemption inputs ctx tok fmt ->
     branch_check inputs ctx = inr (Some m) ->
     extracted inputs (head_ref ctx) = inl e ->
     P (Rejected e,
        title_calls ctx tok ++ exemption_calls inputs ctx ++ branch_found
        ++ [SetFailed e])) ->
  (forall tok fmt m,
     passes_exemption inputs ctx tok fmt ->
     branch_check inputs ctx = inr (Some m) ->
     extracted inputs (head_ref ctx) = inr None ->
     P (Rejected "Could not extract a ticket ID reference from the branch",
        title_calls ctx tok ++ exemption_calls inputs ctx ++ branch_found
        ++ [SetFailed "Could not extract a ticket ID reference from the branch"])) ->
  (forall tok fmt m id,
     passes_exemption inputs ctx tok fmt ->
     branch_check inputs ctx = inr (Some m) ->
     extracted inputs (head_ref ctx) = inr (Some id) ->
     P (TitleUpdated Branch,
        title_calls ctx tok ++ exemption_calls inputs ctx ++ branch_found
        ++ rewrite_calls inputs ctx fmt id branch_notice)) ->
  (forall tok fmt,
     passes_branch inputs ctx tok fmt -> body ctx = None ->
     P (Rejected "Could not retrieve the Pull Request body",
        title_calls ctx tok ++ exemption_calls inputs ctx
        ++ debug_calls "failure" "Body is undefined"
        ++ [SetFailed "Could not retrieve the Pull Request body"])) ->
  (forall tok fmt b e,
     passes_branch inputs ctx tok fmt -> body ctx = Some b ->
     body_check inputs (to_string b) = inl e ->
     P (Rejected e,
        title_calls ctx tok ++ exemption_calls inputs ctx
        ++ debug_calls "body contents" b ++ [SetFailed e])) ->
  (forall tok fmt b m e,
     passes_branch inputs ctx tok fmt -> body ctx = Some b ->
     body_check inputs (to_string b) = inr (Some m) -> extracted inputs m = inl e ->
     P (Rejected e,
        title_calls ctx tok ++ exemption_calls inputs ctx ++ body_found b
        ++ [SetFailed e])) ->
  (forall tok fmt b m,
     passes_branch inputs ctx tok fmt -> body ctx = Some b ->
     body_check inputs (to_string b) = inr (Some m) ->
     extracted inputs m = inr None ->
     P (Rejected "Could not extract a ticket shorthand reference from the body",
        title_calls ctx tok ++ exemption_calls inputs ctx ++ body_found b
        ++ [SetFailed
              "Could not extract a ticket shorthand reference from the body"])) ->
  (forall tok fmt b m id,
     passes_branch inputs ctx tok fmt -> body ctx = Some b ->
     body_check inputs (to_string b) = inr (Some m) ->
     extracted inputs m = inr (Some id) ->
     P (TitleUpdated Body,
        title_calls ctx tok ++ exemption_calls inputs ctx ++ body_found b
        ++ rewrite_calls inputs ctx fmt id body_notice)) ->
  (forall tok fmt b,
     passes_branch inputs ctx tok fmt -> body ctx = Some b ->
     body_check inputs (to_string b) = inr None ->
     P (Rejected "No ticket was referenced in this pull request",
        title_calls ctx tok ++ exemption_calls inputs ctx
        ++ debug_calls "body contents" b
        ++ debug_calls "failure"
             "Title, branch, and body do not contain a reference to a ticket"
        ++ [SetFailed "No ticket was referenced in this pull request"])) ->
  P (run inputs ctx).
Proof.
  intros P1 P2 P2' P3 P4 P5 P6 P7 P8 P9 P10 P11 P12 P13 P14 P15.
  destruct (title_check inputs ctx) as [e|r] eqn:Htitle;
    [rewrite (run_title_error _ _ Htitle); by apply P1|].
  destruct (getInput inputs "token" true) as [e|tok] eqn:Htok;
    [rewrite (run_token_error _ _ _ Htitle Htok); by eapply P2|].
  destruct (decide (tok = EmptyString)) as [->|Hclient];
    [rewrite (run_client_error _ _ _ Htitle Htok eq_refl); by eapply P2'|].
  assert (client_token inputs tok) as Hct by done.
  destruct r as [m|]; [rewrite (run_approved _ _ _ Htitle Hct); by eapply P3|].
  assert (passes_title inputs ctx tok) as Hpt by done.
  destruct (exempt inputs ctx) eqn:Hex;
    [rewrite (run_exempted _ _ Hpt Hex); by apply P4|].
  destruct (getInput inputs "titleFormat" true) as [e|fmt] eqn:Hfmt;
    [rewrite (run_titleFormat_error _ _ _ Hpt Hex Hfmt); by apply P5|].
  assert (passes_exemption inputs ctx tok fmt) as Hpe by done.
  destruct (branch_check inputs ctx) as [e|[m|]] eqn:Hbranch.
  { rewrite (run_branch_error _ _ _ _ Hpe Hbranch). by eapply P6. }
  { destruct (extracted inputs (head_ref ctx)) as [e|[id|]] eqn:Hid.
    - rewrite (run_branch_extract_error _ _ _ _ _ Hpe Hbranch Hid). by eapply P7.
    - rewrite (run_branch_updated _ _ _ _ _ Hpe Hbranch Hid). by eapply P9.
    - rewrite (run_branch_no_id _ _ _ _ Hpe Hbranch Hid). by eapply P8. }
  assert (passes_branch inputs ctx tok fmt) as Hpb by done.
  destruct (body ctx) as [b|] eqn:Hbody;
    [|rewrite (run_no_body _ _ _ Hpb Hbody); by eapply P10].
  destruct (body_check inputs (to_string b)) as [e|[m|]] eqn:Hcheck.
  - rewrite (run_body_error _ _ _ _ _ Hpb Hbody Hcheck). by eapply P11.
  - destruct (extracted inputs m) as [e|[id|]] eqn:Hid.
    + rewrite (run_body_extract_error _ _ _ _ _ _ Hpb Hbody Hcheck Hid).
      by eapply P12.
    + rewrite (run_body_updated _ _ _ _ _ _ Hpb Hbody Hcheck Hid). by eapply P14.
    + rewrite (run_body_no_id _ _ _ _ _ Hpb Hbody Hcheck Hid). by eapply P13.
  - rewrite (run_no_reference _ _ _ _ Hpb Hbody Hcheck). by eapply P15.
Qed.

(** *** What every run has in common *)

Lemma run_catch ctx e calls :
  run_try inputs ctx = (inl e, calls) ->
  run inputs ctx = (Rejected e, calls ++ [SetFailed e]).
Proof. unfold run. by intros ->. Qed.

Lemma run_well_reported ctx : well_reported (run inputs ctx).
Proof.
  pattern (run inputs ctx). apply run_cases; intros;
    unfold well_reported, rewrite_calls; cbn [fst snd];
    try destruct (quiet inputs); done.
Qed.

Lemma omap_snoc_nil {A B} (f : A -> option B) l x :
  omap f (l ++ [x]) = [] -> omap f l = [].
Proof.
  rewrite omap_app. intros Happ. by apply app_eq_nil in Happ as [? _].
Qed.

(** An [Error] is thrown before any request is made, and before any
    failure is reported. *)
Lemma run_try_throws_early ctx e calls :
  run_try inputs ctx = (inl e, calls) ->
  updates calls = [] /\ reviews calls = [] /\ failures calls = [].
Proof.
  intros Htry. pose proof (run_well_reported ctx) as Hrep.
  rewrite (run_catch _ _ _ Htry) in Hrep. unfold well_reported in Hrep.
  cbn [fst snd] in Hrep. destruct Hrep as (Hfail & _ & Hup & Hrev).
  split; [by eapply omap_snoc_nil|]. split; [by eapply omap_snoc_nil|].
  unfold failures in *. rewrite omap_app in Hfail. cbn in Hfail.
  destruct (omap _ calls) as [|x l]; [done|].
  destruct l; discriminate.
Qed.

Lemma run_try_token_error ctx r e :
  title_check inputs ctx = inr r -> getInput inputs "token" true = inl e ->
  run_try inputs ctx = (inl e, debug_calls "context" (JSON_stringify ctx)).
Proof.
  intros; unpack; unfold run_try; cbn; repeat run_step; reflexivity.
Qed.

Lemma run_try_client_error ctx r :
  title_check inputs ctx = inr r ->
  getInput inputs "token" true = inr EmptyString ->
  run_try inputs ctx =
    (inl "Parameter token or opts.auth is required",
     debug_calls "context" (JSON_stringify ctx)).
Proof.
  intros; unpack; unfold run_try, getOctokit; cbn; repeat run_step; reflexivity.
Qed.

Lemma exempt_true_iff ctx :
  exempt inputs ctx = true <->
  sender ctx <> EmptyString /\ sender ctx ∈ exemptUsers inputs.
Proof.
  unfold exempt, JsString.includes.
  by rewrite andb_true_iff, truthy_nonempty, bool_decide_eq_true.
Qed.

Lemma getInput_inr name v :
  getInput inputs name true = inr v ->
  v = value inputs name /\ input inputs name <> EmptyString.
Proof.
  rewrite getInput_required. destruct (input inputs name) as [|c s] eqn:Hin; [done|].
  unfold JsString.truthy. by intros [= <-].
Qed.

Lemma getInput_inl name e :
  getInput inputs name true = inl e ->
  input inputs name = EmptyString /\
  e = "Input required and not supplied: " +:+ name.
Proof.
  rewrite getInput_required. destruct (input inputs name) as [|c s] eqn:Hin; [|done].
  unfold JsString.truthy. by intros [= <-].
Qed.

Lemma quiet_true_iff : quiet inputs = true <-> value inputs "quiet" = "true".
Proof. unfold quiet. apply String.eqb_eq. Qed.

(** *** The title *)

(** C1, as the code has it: for every configuration whose token is not
    blank, so that [getInput] returns a token that is not empty and the
    client can be built, and every pull-request context, if the title
    pattern compiles and matches the title, the run ends Approved after the
    log of the title, with no title update, no comment and no failure,
    whatever the branch name, the body and the author are. *)
Theorem title_match_approved ctx m tok :
  title_check inputs ctx = inr (Some m) ->
  getInput inputs "token" true = inr tok -> tok <> EmptyString ->
  run inputs ctx =
    (Approved,
     title_calls ctx tok ++ debug_calls "success" "Title includes a ticket ID")
  /\ updates (snd (run inputs ctx)) = []
  /\ reviews (snd (run inputs ctx)) = []
  /\ failures (snd (run inputs ctx)) = []
  /\ forall ctx', title ctx' = title ctx ->
       fst (run inputs ctx') = Approved /\
       updates (snd (run inputs ctx')) = [] /\
       reviews (snd (run inputs ctx')) = [].
Proof.
  intros Htitle Htok Hclient.
  assert (client_token inputs tok) as Hct by done.
  rewrite (run_approved _ _ _ Htitle Hct).
  do 4 (split; [done|]). intros ctx' Hsame.
  assert (title_check inputs ctx' = inr (Some m)) as Htitle'
    by (unfold title_check in *; by rewrite Hsame).
  by rewrite (run_approved _ _ _ Htitle' Hct).
Qed.

(** C10: on the path of a matching title the token is read as a required
    input and the client is built before the run returns. With no token
    value the [Error] of [getInput] is caught and reported by [setFailed],
    and so is the [Error] of [getOctokit] for a token that is blank; the run
    then does not end Approved. With any other token the client is built
    with the trimmed token and the run ends Approved. No request to change
    the pull request is made either way. *)
Theorem title_match_needs_token ctx m :
  title_check inputs ctx = inr (Some m) ->
  match getInput inputs "token" true with
  | inl e =>
      run_try inputs ctx = (inl e, debug_calls "context" (JSON_stringify ctx)) /\
      run inputs ctx =
        (Rejected e, debug_calls "context" (JSON_stringify ctx) ++ [SetFailed e])
      /\ clients (snd (run inputs ctx)) = []
  | inr tok =>
      if JsString.truthy tok then
        run inputs ctx =
          (Approved,
           debug_calls "context" (JSON_stringify ctx) ++ [GetOctokit tok]
           ++ debug_calls "title" (title ctx)
           ++ debug_calls "success" "Title includes a ticket ID")
        /\ clients (snd (run inputs ctx)) = [tok]
        /\ tok = JsString.trim (input inputs "token")
      else
        run_try inputs ctx =
          (inl "Parameter token or opts.auth is required",
           debug_calls "context" (JSON_stringify ctx)) /\
        run inputs ctx =
          (Rejected "Parameter token or opts.auth is required",
           debug_calls "context" (JSON_stringify ctx)
           ++ [SetFailed "Parameter token or opts.auth is required"])
        /\ clients (snd (run inputs ctx)) = []
  end
  /\ (input inputs "token" = EmptyString ->
      getInput inputs "token" true = inl "Input required and not supplied: token" /\
      fst (run inputs ctx) = Rejected "Input required and not supplied: token" /\
      failures (snd (run inputs ctx)) = ["Input required and not supplied: token"])
  /\ updates (snd (run inputs ctx)) = []
  /\ reviews (snd (run inputs ctx)) = [].
Proof.
  intros Htitle. split; [|split].
  - destruct (getInput inputs "token" true) as [e|tok] eqn:Htok.
    + split; [by eapply run_try_token_error|].
      by rewrite (run_token_error _ _ _ Htitle Htok).
    + destruct (JsString.truthy tok) eqn:Htruthy.
      * apply truthy_nonempty in Htruthy.
        assert (client_token inputs tok) as Hct by done.
        rewrite (run_approved _ _ _ Htitle Hct).
        do 2 (split; [done|]). by apply getInput_inr in Htok as [-> _].
      * apply truthy_empty in Htruthy as ->.
        split; [by eapply run_try_client_error|].
        by rewrite (run_client_error _ _ _ Htitle Htok eq_refl).
  - intros Hmissing%getInput_missing. split; [done|].
    by rewrite (run_token_error _ _ _ Htitle Hmissing).
  - destruct (getInput inputs "token" true) as [e|tok] eqn:Htok.
    + by rewrite (run_token_error _ _ _ Htitle Htok).
    + destruct (decide (tok = EmptyString)) as [->|Hne].
      * by rewrite (run_client_error _ _ _ Htitle Htok eq_refl).
      * assert (client_token inputs tok) as Hct by done.
        by rewrite (run_approved _ _ _ Htitle Hct).
Qed.

(** *** The exemption *)

(** C2: when the title does not match, a sender that is not empty and is
    one of the entries of the exempt-user list (the option split on commas,
    each entry trimmed) ends the run Exempted, with no title update and no
    comment, whatever the branch name and the body are. *)
Theorem exempt_sender_exempted ctx tok :
  passes_title inputs ctx tok ->
  sender ctx <> EmptyString ->
  sender ctx ∈ map JsString.trim (JsString.split (input inputs "exemptUsers") ",") ->
  run inputs ctx =
    (Exempted,
     title_calls ctx tok ++ exemption_calls inputs ctx
     ++ debug_calls "success" "User is listed as exempt")
  /\ updates (snd (run inputs ctx)) = []
  /\ reviews (snd (run inputs ctx)) = []
  /\ failures (snd (run inputs ctx)) = [].
Proof.
  intros Hpt Hne Hin.
  assert (exempt inputs ctx = true) as Hex by by apply exempt_true_iff.
  by rewrite (run_exempted _ _ Hpt Hex).
Qed.

(** *** The branch *)

(** C4: when the branch pattern matches the branch name and the ticket
    pattern finds nothing in the branch name, the run ends Rejected with the
    message about the branch, makes no title update and no comment, and does
    nothing of the body stage: the same holds with any other body in the
    place of the one given. *)
Theorem branch_extraction_failure_rejected ctx tok fmt m :
  passes_exemption inputs ctx tok fmt ->
  branch_check inputs ctx = inr (Some m) ->
  extracted inputs (head_ref ctx) = inr None ->
  run inputs ctx =
    (Rejected "Could not extract a ticket ID reference from the branch",
     title_calls ctx tok ++ exemption_calls inputs ctx ++ branch_found
     ++ [SetFailed "Could not extract a ticket ID reference from the branch"])
  /\ updates (snd (run inputs ctx)) = []
  /\ reviews (snd (run inputs ctx)) = []
  /\ forall body',
       run inputs (with_body ctx body') =
         (Rejected "Could not extract a ticket ID reference from the branch",
          title_calls (with_body ctx body') tok ++ exemption_calls inputs ctx
          ++ branch_found
          ++ [SetFailed "Could not extract a ticket ID reference from the branch"]).
Proof.
  intros Hpe Hbranch Hid. rewrite (run_branch_no_id _ _ _ _ Hpe Hbranch Hid).
  do 3 (split; [done|]). intros body'.
  by rewrite (run_branch_no_id (with_body ctx body') tok fmt m Hpe Hbranch Hid).
Qed.

(** C7: when the branch pattern matches and an identifier is extracted,
    one title update is requested, with the title made from the title
    format, the prefix, the identifier and the old title; when [getInput]
    gives "true" for the option quiet (the option is the string "true") no
    comment is requested; otherwise one comment with the message for the
    branch name is requested, right after the update. *)
Theorem branch_update_and_notice ctx tok fmt m id :
  passes_exemption inputs ctx tok fmt ->
  branch_check inputs ctx = inr (Some m) ->
  extracted inputs (head_ref ctx) = inr (Some id) ->
  let before := title_calls ctx tok ++ exemption_calls inputs ctx ++ branch_found in
  let update :=
    PullsUpdate (owner ctx) (repo ctx) (number ctx)
      (new_title fmt (JsString.trim (input inputs "ticketPrefix")) id (title ctx)) in
  let comment :=
    PullsCreateReview (owner ctx) (repo ctx) (number ctx) branch_notice "COMMENT" in
  fst (run inputs ctx) = TitleUpdated Branch
  /\ updates before = [] /\ reviews before = []
  /\ updates (snd (run inputs ctx))
     = [new_title fmt (JsString.trim (input inputs "ticketPrefix")) id (title ctx)]
  /\ (JsString.trim (input inputs "quiet") = "true" ->
      snd (run inputs ctx) = before ++ [update] /\
      reviews (snd (run inputs ctx)) = [])
  /\ (input inputs "quiet" = "true" ->
      snd (run inputs ctx) = before ++ [update] /\
      reviews (snd (run inputs ctx)) = [])
  /\ (JsString.trim (input inputs "quiet") <> "true" ->
      snd (run inputs ctx) = before ++ [update; comment] /\
      reviews (snd (run inputs ctx)) = [branch_notice]).
Proof.
  intros Hpe Hbranch Hid before update comment.
  rewrite (run_branch_updated _ _ _ _ _ Hpe Hbranch Hid).
  unfold rewrite_calls, update_call, review_call, quiet, value. cbn [fst snd].
  split; [done|]. split; [done|]. split; [done|].
  split; [by destruct (String.eqb _ _)|]. split; [|split].
  - intros ->. done.
  - intros ->. done.
  - intros Hq%String.eqb_neq. by rewrite Hq.
Qed.

(** *** The body *)

(** C5, what the code does at the body stage. An undefined body ends the
    run Rejected with the message about the missing body and no request. A
    body that is [null] is not stopped there: it is logged and the body
    pattern is run on the text "null", like on the text of a body that is a
    string. When the body pattern matches, the ticket pattern is run over
    the matched text: an identifier found there gives the title update and
    the outcome TitleUpdated(body), none found there is the failure about the
    body; when it does not match, the run ends with the message that no
    ticket was referenced. *)
Theorem body_stage ctx tok fmt :
  passes_branch inputs ctx tok fmt ->
  match body ctx with
  | None =>
      run inputs ctx =
        (Rejected "Could not retrieve the Pull Request body",
         title_calls ctx tok ++ exemption_calls inputs ctx
         ++ debug_calls "failure" "Body is undefined"
         ++ [SetFailed "Could not retrieve the Pull Request body"])
      /\ updates (snd (run inputs ctx)) = []
      /\ reviews (snd (run inputs ctx)) = []
  | Some b =>
      match body_check inputs (to_string b) with
      | inl e =>
          run inputs ctx =
            (Rejected e,
             title_calls ctx tok ++ exemption_calls inputs ctx
             ++ debug_calls "body contents" b ++ [SetFailed e])
      | inr None =>
          run inputs ctx =
            (Rejected "No ticket was referenced in this pull request",
             title_calls ctx tok ++ exemption_calls inputs ctx
             ++ debug_calls "body contents" b
             ++ debug_calls "failure"
                  "Title, branch, and body do not contain a reference to a ticket"
             ++ [SetFailed "No ticket was referenced in this pull request"])
      | inr (Some m) =>
          match extracted inputs m with
          | inr (Some id) =>
              run inputs ctx =
                (TitleUpdated Body,
                 title_calls ctx tok ++ exemption_calls inputs ctx ++ body_found b
                 ++ rewrite_calls inputs ctx fmt id body_notice)
              /\ updates (snd (run inputs ctx))
                 = [new_title fmt (JsString.trim (input inputs "ticketPrefix")) id
                      (title ctx)]
          | inr None =>
              run inputs ctx =
                (Rejected "Could not extract a ticket shorthand reference from the body",
                 title_calls ctx tok ++ exemption_calls inputs ctx ++ body_found b
                 ++ [SetFailed
                       "Could not extract a ticket shorthand reference from the body"])
          | inl e =>
              run inputs ctx =
                (Rejected e,
                 title_calls ctx tok ++ exemption_calls inputs ctx ++ body_found b
                 ++ [SetFailed e])
          end
      end
  end.
Proof.
  intros Hpb. destruct (body ctx) as [b|] eqn:Hbody.
  - destruct (body_check inputs (to_string b)) as [e|[m|]] eqn:Hcheck.
    + by eapply run_body_error.
    + destruct (extracted inputs m) as [e|[id|]] eqn:Hid.
      * by eapply run_body_extract_error.
      * rewrite (run_body_updated _ _ _ _ _ _ Hpb Hbody Hcheck Hid).
        split; [done|]. unfold rewrite_calls. by destruct (quiet inputs).
      * by eapply run_body_no_id.
    + by eapply run_no_reference.
  - by rewrite (run_no_body _ _ _ Hpb Hbody).
Qed.

(** *** Failures *)

(** C8, as the code has it: an option is read, and a pattern compiled, when
    the run reaches the statement that does so, and a required option that
    is missing or a pattern that does not compile fails the run there: the
    [Error] is reported by [setFailed] with its message and no request to
    change the pull request has been made. The title pattern is compiled
    and run first, then the token is read and the client built; an [Error]
    in one of these steps fails the run before the result of the title test
    is used, with the context dump as the only call before the report. The
    options of a later stage are not looked at when an earlier stage ends
    the run: a matching title ends it Approved and a branch match rewrites
    the title, whatever the options of the stages behind them are. *)
Theorem configuration_error_when_read ctx :
  (forall name, input inputs name = EmptyString ->
     getInput inputs name true = inl ("Input required and not supplied: " +:+ name))
  /\ (forall e,
        title_check inputs ctx = inl e \/
        (exists r, title_check inputs ctx = inr r /\
                   getInput inputs "token" true = inl e) \/
        (exists r, title_check inputs ctx = inr r /\
                   getInput inputs "token" true = inr EmptyString /\
                   e = "Parameter token or opts.auth is required") ->
        run inputs ctx =
          (Rejected e, debug_calls "context" (JSON_stringify ctx) ++ [SetFailed e]))
  /\ (forall tok e,
        passes_title inputs ctx tok -> exempt inputs ctx = false ->
        getInput inputs "titleFormat" true = inl e ->
        fails_with (run inputs ctx) e)
  /\ (forall tok fmt e,
        passes_exemption inputs ctx tok fmt ->
        branch_check inputs ctx = inl e \/
        (exists m, branch_check inputs ctx = inr (Some m) /\
                   extracted inputs (head_ref ctx) = inl e) ->
        fails_with (run inputs ctx) e)
  /\ (forall tok fmt b e,
        passes_branch inputs ctx tok fmt -> body ctx = Some b ->
        body_check inputs (to_string b) = inl e \/
        (exists m, body_check inputs (to_string b) = inr (Some m) /\
                   extracted inputs m = inl e) ->
        fails_with (run inputs ctx) e)
  /\ (forall e calls,
        run_try inputs ctx = (inl e, calls) ->
        run inputs ctx = (Rejected e, calls ++ [SetFailed e]) /\
        updates calls = [] /\ reviews calls = [] /\ failures calls = [])
  /\ (forall m tok,
        title_check inputs ctx = inr (Some m) ->
        getInput inputs "token" true = inr tok -> tok <> EmptyString ->
        fst (run inputs ctx) = Approved /\ failures (snd (run inputs ctx)) = [])
  /\ (forall tok fmt m id,
        passes_exemption inputs ctx tok fmt ->
        branch_check inputs ctx = inr (Some m) ->
        extracted inputs (head_ref ctx) = inr (Some id) ->
        fst (run inputs ctx) = TitleUpdated Branch /\
        failures (snd (run inputs ctx)) = [] /\
        updates (snd (run inputs ctx))
        = [new_title fmt (JsString.trim (input inputs "ticketPrefix")) id
             (title ctx)]).
Proof.
  split; [apply getInput_missing|]. repeat apply conj.
  - intros e [Htitle|[(r & Htitle & Htok)|(r & Htitle & Htok & ->)]].
    + by apply run_title_error.
    + by eapply run_token_error.
    + by eapply run_client_error.
  - intros tok e Hpt Hex Hfmt.
    by rewrite (run_titleFormat_error _ _ _ Hpt Hex Hfmt).
  - intros tok fmt e Hpe [Hbranch|(m & Hbranch & Hid)].
    + by rewrite (run_branch_error _ _ _ _ Hpe Hbranch).
    + by rewrite (run_branch_extract_error _ _ _ _ _ Hpe Hbranch Hid).
  - intros tok fmt b e Hpb Hbody [Hcheck|(m & Hcheck & Hid)].
    + by rewrite (run_body_error _ _ _ _ _ Hpb Hbody Hcheck).
    + by rewrite (run_body_extract_error _ _ _ _ _ _ Hpb Hbody Hcheck Hid).
  - intros e calls Htry. split; [by apply run_catch|].
    by eapply run_try_throws_early.
  - intros m tok Htitle Htok Hne.
    assert (client_token inputs tok) as Hct by done.
    by rewrite (run_approved _ _ _ Htitle Hct).
  - intros tok fmt m id Hpe Hbranch Hid.
    rewrite (run_branch_updated _ _ _ _ _ Hpe Hbranch Hid).
    unfold rewrite_calls. by destruct (quiet inputs).
Qed.


End RunFacts.
(** ** Worked examples on the small platform *)

Section Examples.

#[local] Existing Instance Plain.platform.

Import Plain.

(** The hypotheses about a stage that the run reaches, on concrete inputs. *)
Local Ltac stage := repeat split; first [discriminate | vm_compute; reflexivity].

(** The end-to-end example of the specification, with the ticket pattern
    "42": the branch gives the identifier, the title is rewritten and the
    comment follows. *)
Example run_branch_example :
  run inputs pr =
    (TitleUpdated Branch,
     title_calls pr "t0k3n" ++ exemption_calls inputs pr ++ branch_found
     ++ [PullsUpdate "glowwVideo" "ticket-check-action" 7 "[TICK-42] Add login flow";
         PullsCreateReview "glowwVideo" "ticket-check-action" 7 branch_notice
           "COMMENT"]).
Proof. vm_compute. reflexivity. Qed.

(** [getInput] trims what it returns: white space around the values of the
    options changes nothing but the absence of the comment, as quiet is
    " true " here. *)
Example run_padded_example :
  run padded pr =
    (TitleUpdated Branch,
     [Log ""; Log "[CONTEXT]"; Log "{}"; Log ""; GetOctokit "t0k3n";
      Log ""; Log "[TITLE]"; Log "Add login flow"; Log "";
      Log ""; Log "[SENDER]"; Log "alice"; Log "";
      Log ""; Log "[SENDER TYPE]"; Log "User"; Log "";
      Log ""; Log "[QUIET MODE]"; Log "true"; Log "";
      Log ""; Log "[EXEMPT USERS]"; Log "dependabot,renovate,octocat"; Log "";
      Log ""; Log "[SUCCESS]";
      Log "Branch name contains a reference to a ticket, updating title"; Log "";
      PullsUpdate "glowwVideo" "ticket-check-action" 7 "[TICK-42] Add login flow"]).
Proof. vm_compute. reflexivity. Qed.

Lemma title_match_approved_witness :
  run inputs pr_titled =
    (Approved,
     [Log ""; Log "[CONTEXT]"; Log "{}"; Log ""; GetOctokit "t0k3n";
      Log ""; Log "[TITLE]"; Log "TICK-42 Add login flow"; Log "";
      Log ""; Log "[SUCCESS]"; Log "Title includes a ticket ID"; Log ""])
  /\ fst (run inputs (with_body pr_titled (Some (JsStr "No ticket here."))))
     = Approved.
Proof.
  assert (title_check inputs pr_titled = inr (Some "TICK-")) as Htitle
    by (vm_compute; reflexivity).
  assert (getInput inputs "token" true = inr "t0k3n") as Htok
    by (vm_compute; reflexivity).
  assert ("t0k3n" <> EmptyString) as Hne by discriminate.
  pose proof (title_match_approved inputs pr_titled _ _ Htitle Htok Hne)
    as (Hrun & _ & _ & _ & Hany).
  split; [exact Hrun|].
  exact (proj1 (Hany (with_body pr_titled (Some (JsStr "No ticket here.")))
                  eq_refl)).
Defined.

(** C1 as stated fails: without a token the matching title does not end
    the run Approved. *)
Lemma title_match_without_token :
  title_check (delete "token" inputs) pr_titled = inr (Some "TICK-") /\
  fst (run (delete "token" inputs) pr_titled) <> Approved.
Proof. split; [vm_compute; reflexivity|vm_compute; discriminate]. Qed.

(** Nor does a token of white space only: [getInput] lets it pass and trims
    it, and the client is not built. *)
Example title_match_with_blank_token :
  title_check (<["token" := "  "]> inputs) pr_titled = inr (Some "TICK-") /\
  getInput (<["token" := "  "]> inputs) "token" true = inr EmptyString /\
  run (<["token" := "  "]> inputs) pr_titled =
    (Rejected "Parameter token or opts.auth is required",
     [Log ""; Log "[CONTEXT]"; Log "{}"; Log "";
      SetFailed "Parameter token or opts.auth is required"]).
Proof. repeat split; vm_compute; reflexivity. Qed.

Lemma title_match_needs_token_witness :
  run (delete "token" inputs) pr_titled =
    (Rejected "Input required and not supplied: token",
     [Log ""; Log "[CONTEXT]"; Log "{}"; Log "";
      SetFailed "Input required and not supplied: token"])
  /\ failures (snd (run (delete "token" inputs) pr_titled))
     = ["Input required and not supplied: token"].
Proof.
  assert (title_check (delete "token" inputs) pr_titled = inr (Some "TICK-"))
    as Htitle by (vm_compute; reflexivity).
  assert (getInput (delete "token" inputs) "token" true
          = inl "Input required and not supplied: token") as Hget
    by (vm_compute; reflexivity).
  assert (input (delete "token" inputs) "token" = EmptyString) as Hmissing
    by (vm_compute; reflexivity).
  pose proof (title_match_needs_token (delete "token" inputs) pr_titled _ Htitle)
    as (Hcases & Hfail & _).
  rewrite Hget in Hcases.
  split; [exact (proj1 (proj2 Hcases))|exact (proj2 (proj2 (Hfail Hmissing)))].
Defined.

Lemma exempt_sender_exempted_witness :
  run inputs pr_bot =
    (Exempted,
     [Log ""; Log "[CONTEXT]"; Log "{}"; Log ""; GetOctokit "t0k3n";
      Log ""; Log "[TITLE]"; Log "Bump lodash"; Log "";
      Log ""; Log "[SENDER]"; Log "renovate"; Log "";
      Log ""; Log "[SENDER TYPE]"; Log "Bot"; Log "";
      Log ""; Log "[QUIET MODE]"; Log "false"; Log "";
      Log ""; Log "[EXEMPT USERS]"; Log "dependabot,renovate,octocat"; Log "";
      Log ""; Log "[SUCCESS]"; Log "User is listed as exempt"; Log ""]).
Proof.
  assert (passes_title inputs pr_bot "t0k3n") as Hpt
    by stage.
  assert (sender pr_bot <> EmptyString) as Hne by (vm_compute; discriminate).
  assert (sender pr_bot
          ∈ map JsString.trim (JsString.split (input inputs "exemptUsers") ","))
    as Hin by (apply list_elem_of_In; vm_compute; auto).
  exact (proj1 (exempt_sender_exempted inputs pr_bot _ Hpt Hne Hin)).
Defined.

Lemma branch_extraction_failure_rejected_witness :
  run inputs pr_branch_without_id =
    (Rejected "Could not extract a ticket ID reference from the branch",
     [Log ""; Log "[CONTEXT]"; Log "{}"; Log ""; GetOctokit "t0k3n";
      Log ""; Log "[TITLE]"; Log "Add login flow"; Log "";
      Log ""; Log "[SENDER]"; Log "alice"; Log "";
      Log ""; Log "[SENDER TYPE]"; Log "User"; Log "";
      Log ""; Log "[QUIET MODE]"; Log "false"; Log "";
      Log ""; Log "[EXEMPT USERS]"; Log "dependabot,renovate,octocat"; Log "";
      Log ""; Log "[SUCCESS]";
      Log "Branch name contains a reference to a ticket, updating title"; Log "";
      SetFailed "Could not extract a ticket ID reference from the branch"])
  /\ fst (run inputs (with_body pr_branch_without_id None))
     = Rejected "Could not extract a ticket ID reference from the branch".
Proof.
  assert (passes_exemption inputs pr_branch_without_id "t0k3n"
            "[%prefix%-%id%] %title%") as Hpe
    by stage.
  assert (branch_check inputs pr_branch_without_id = inr (Some "TICK-")) as Hbranch
    by (vm_compute; reflexivity).
  assert (extracted inputs (head_ref pr_branch_without_id) = inr None) as Hid
    by (vm_compute; reflexivity).
  pose proof (branch_extraction_failure_rejected inputs pr_branch_without_id
                _ _ _ Hpe Hbranch Hid) as (Hrun & _ & _ & Hany).
  split; [exact Hrun|exact (f_equal fst (Hany None))].
Defined.

Lemma branch_update_and_notice_witness :
  updates (snd (run inputs pr)) = ["[TICK-42] Add login flow"] /\
  reviews (snd (run inputs pr)) = [branch_notice] /\
  snd (run inputs pr) =
    [Log ""; Log "[CONTEXT]"; Log "{}"; Log ""; GetOctokit "t0k3n";
     Log ""; Log "[TITLE]"; Log "Add login flow"; Log "";
     Log ""; Log "[SENDER]"; Log "alice"; Log "";
     Log ""; Log "[SENDER TYPE]"; Log "User"; Log "";
     Log ""; Log "[QUIET MODE]"; Log "false"; Log "";
     Log ""; Log "[EXEMPT USERS]"; Log "dependabot,renovate,octocat"; Log "";
     Log ""; Log "[SUCCESS]";
     Log "Branch name contains a reference to a ticket, updating title"; Log "";
     PullsUpdate "glowwVideo" "ticket-check-action" 7 "[TICK-42] Add login flow";
     PullsCreateReview "glowwVideo" "ticket-check-action" 7 branch_notice
       "COMMENT"].
Proof.
  assert (passes_exemption inputs pr "t0k3n" "[%prefix%-%id%] %title%") as Hpe
    by stage.
  assert (branch_check inputs pr = inr (Some "TICK-")) as Hbranch
    by (vm_compute; reflexivity).
  assert (extracted inputs (head_ref pr) = inr (Some "42")) as Hid
    by (vm_compute; reflexivity).
  assert (JsString.trim (input inputs "quiet") <> "true") as Hloud
    by (vm_compute; discriminate).
  pose proof (branch_update_and_notice inputs pr _ _ _ _ Hpe Hbranch Hid)
    as (_ & _ & _ & Hupdate & _ & _ & Hcomment).
  split; [exact Hupdate|].
  split; [exact (proj2 (Hcomment Hloud))|exact (proj1 (Hcomment Hloud))].
Defined.

(** With the option quiet the update is requested and the comment is not;
    the option is compared after [getInput] has trimmed it. *)
Example run_quiet_example :
  updates (snd (run (<["quiet" := "true"]> inputs) pr)) = ["[TICK-42] Add login flow"] /\
  reviews (snd (run (<["quiet" := "true"]> inputs) pr)) = [] /\
  updates (snd (run (<["quiet" := " true "]> inputs) pr)) = ["[TICK-42] Add login flow"] /\
  reviews (snd (run (<["quiet" := " true "]> inputs) pr)) = [] /\
  reviews (snd (run (<["quiet" := "TRUE"]> inputs) pr)) = [branch_notice].
Proof. repeat split; vm_compute; reflexivity. Qed.

(** C5 on a pull request without a description, whose body is [null]: the
    run does not stop with the message about the missing body; the body
    pattern is run on the text "null". On a body with a reference the title
    is rewritten from the text the body pattern matched. *)
Lemma body_stage_witness :
  run inputs pr_without_description =
    (Rejected "No ticket was referenced in this pull request",
     [Log ""; Log "[CONTEXT]"; Log "{}"; Log ""; GetOctokit "t0k3n";
      Log ""; Log "[TITLE]"; Log "Add login flow"; Log "";
      Log ""; Log "[SENDER]"; Log "alice"; Log "";
      Log ""; Log "[SENDER TYPE]"; Log "User"; Log "";
      Log ""; Log "[QUIET MODE]"; Log "false"; Log "";
      Log ""; Log "[EXEMPT USERS]"; Log "dependabot,renovate,octocat"; Log "";
      Log ""; Log "[BODY CONTENTS]"; Log JsNull; Log "";
      Log ""; Log "[FAILURE]";
      Log "Title, branch, and body do not contain a reference to a ticket";
      Log ""; SetFailed "No ticket was referenced in this pull request"])
  /\ run inputs pr_described =
    (TitleUpdated Body,
     [Log ""; Log "[CONTEXT]"; Log "{}"; Log ""; GetOctokit "t0k3n";
      Log ""; Log "[TITLE]"; Log "Add login flow"; Log "";
      Log ""; Log "[SENDER]"; Log "alice"; Log "";
      Log ""; Log "[SENDER TYPE]"; Log "User"; Log "";
      Log ""; Log "[QUIET MODE]"; Log "false"; Log "";
      Log ""; Log "[EXEMPT USERS]"; Log "dependabot,renovate,octocat"; Log "";
      Log ""; Log "[BODY CONTENTS]"; Log "Implements TICK-42."; Log "";
      Log ""; Log "[SUCCESS]";
      Log "Body contains a reference to a ticket, updating title"; Log "";
      PullsUpdate "glowwVideo" "ticket-check-action" 11 "[TICK-42] Add login flow";
      PullsCreateReview "glowwVideo" "ticket-check-action" 11 body_notice
        "COMMENT"])
  /\ updates (snd (run inputs pr_described)) = ["[TICK-42] Add login flow"].
Proof.
  assert (passes_branch inputs pr_without_description "t0k3n"
            "[%prefix%-%id%] %title%") as Hpb by stage.
  assert (body_check inputs "null" = inr None) as Hcheck
    by (vm_compute; reflexivity).
  pose proof (body_stage inputs pr_without_description _ _ Hpb) as Hstage.
  cbn [body pr_without_description to_string] in Hstage.
  rewrite Hcheck in Hstage.
  assert (passes_branch inputs pr_described "t0k3n" "[%prefix%-%id%] %title%")
    as Hpb' by stage.
  assert (body_check inputs "Implements TICK-42." = inr (Some "TICK-42"))
    as Hcheck' by (vm_compute; reflexivity).
  assert (extracted inputs "TICK-42" = inr (Some "42")) as Hid
    by (vm_compute; reflexivity).
  pose proof (body_stage inputs pr_described _ _ Hpb') as Hstage'.
  cbn [body pr_described to_string] in Hstage'.
  rewrite Hcheck', Hid in Hstage'.
  split; [exact Hstage|]. split; [exact (proj1 Hstage')|exact (proj2 Hstage')].
Defined.

(** With a body pattern that matches the text "null", the pull request
    without a description gets the title of a ticket. *)
Example null_body_matched_as_text :
  let inputs' := <["bodyRegex" := "ul"]> (<["ticketRegex" := "ul"]> inputs) in
  fst (run inputs' pr_without_description) = TitleUpdated Body /\
  updates (snd (run inputs' pr_without_description)) = ["[TICK-ul] Add login flow"] /\
  failures (snd (run inputs' pr_without_description)) = [].
Proof. repeat split; vm_compute; reflexivity. Qed.

(** An undefined body is the one case that ends with the message about
    the body. *)
Example undefined_body_rejected :
  run inputs (with_body pr_plain None) =
    (Rejected "Could not retrieve the Pull Request body",
     title_calls pr_plain "t0k3n" ++ exemption_calls inputs pr_plain
     ++ [Log ""; Log "[FAILURE]"; Log "Body is undefined"; Log "";
         SetFailed "Could not retrieve the Pull Request body"]).
Proof. vm_compute. reflexivity. Qed.

(** A body with a reference: the title is rewritten from the text the body
    pattern matched. *)
Example run_body_example :
  run inputs pr_described =
    (TitleUpdated Body,
     title_calls pr_described "t0k3n" ++ exemption_calls inputs pr_described
     ++ [Log ""; Log "[BODY CONTENTS]"; Log "Implements TICK-42."; Log "";
         Log ""; Log "[SUCCESS]";
         Log "Body contains a reference to a ticket, updating title"; Log "";
         PullsUpdate "glowwVideo" "ticket-check-action" 11 "[TICK-42] Add login flow";
         PullsCreateReview "glowwVideo" "ticket-check-action" 11 body_notice
           "COMMENT"]).
Proof. vm_compute. reflexivity. Qed.

(** The ticket pattern is run over the text the body pattern matched: a
    ticket pattern found elsewhere in the body does not count. *)
Example body_extraction_on_match_only :
  let inputs' := <["ticketRegex" := "Implements"]> inputs in
  extracted inputs' "Implements TICK-42." = inr (Some "Implements") /\
  body_check inputs' "Implements TICK-42." = inr (Some "TICK-42") /\
  run inputs' pr_described =
    (Rejected "Could not extract a ticket shorthand reference from the body",
     title_calls pr_described "t0k3n" ++ exemption_calls inputs' pr_described
     ++ body_found "Implements TICK-42."
     ++ [SetFailed "Could not extract a ticket shorthand reference from the body"]).
Proof. repeat split; vm_compute; reflexivity. Qed.

Lemma configuration_error_when_read_witness :
  run (delete "titleRegexFlags" inputs) pr =
    (Rejected "Input required and not supplied: titleRegexFlags",
     [Log ""; Log "[CONTEXT]"; Log "{}"; Log "";
      SetFailed "Input required and not supplied: titleRegexFlags"])
  /\ run (<["token" := " "]> inputs) pr =
    (Rejected "Parameter token or opts.auth is required",
     [Log ""; Log "[CONTEXT]"; Log "{}"; Log "";
      SetFailed "Parameter token or opts.auth is required"])
  /\ (fst (run (delete "bodyRegex" inputs) pr) = TitleUpdated Branch /\
      failures (snd (run (delete "bodyRegex" inputs) pr)) = [] /\
      updates (snd (run (delete "bodyRegex" inputs) pr))
      = ["[TICK-42] Add login flow"]).
Proof.
  assert (title_check (delete "titleRegexFlags" inputs) pr
          = inl "Input required and not supplied: titleRegexFlags") as Htitle
    by (vm_compute; reflexivity).
  assert (title_check (<["token" := " "]> inputs) pr = inr None) as Htitle'
    by (vm_compute; reflexivity).
  assert (getInput (<["token" := " "]> inputs) "token" true = inr EmptyString)
    as Htok by (vm_compute; reflexivity).
  assert (passes_exemption (delete "bodyRegex" inputs) pr "t0k3n"
            "[%prefix%-%id%] %title%") as Hpe by stage.
  assert (branch_check (delete "bodyRegex" inputs) pr = inr (Some "TICK-"))
    as Hbranch by (vm_compute; reflexivity).
  assert (extracted (delete "bodyRegex" inputs) (head_ref pr) = inr (Some "42"))
    as Hid by (vm_compute; reflexivity).
  pose proof (configuration_error_when_read (delete "titleRegexFlags" inputs) pr)
    as (_ & Hearly & _).
  pose proof (configuration_error_when_read (<["token" := " "]> inputs) pr)
    as (_ & Hearly' & _).
  pose proof (configuration_error_when_read (delete "bodyRegex" inputs) pr)
    as (_ & _ & _ & _ & _ & _ & _ & Hlater).
  split; [exact (Hearly _ (or_introl Htitle))|].
  split; [|exact (Hlater _ _ _ _ Hpe Hbranch Hid)].
  exact (Hearly' _ (or_intror (or_intror
           (ex_intro _ None (conj Htitle' (conj Htok eq_refl)))))).
Defined.

(** C8 as stated fails: a missing body pattern, or one that does not
    compile, goes unnoticed when the branch stage ends the run, and the
    title is rewritten. *)
Lemma missing_body_pattern_unnoticed :
  input (delete "bodyRegex" inputs) "bodyRegex" = EmptyString /\
  failures (snd (run (delete "bodyRegex" inputs) pr)) = [] /\
  updates (snd (run (delete "bodyRegex" inputs) pr)) = ["[TICK-42] Add login flow"].
Proof. repeat split; vm_compute; reflexivity. Qed.

Example invalid_body_pattern_unnoticed :
  let inputs' := <["bodyRegex" := "("]> inputs in
  pattern_of inputs' "bodyRegex" "bodyRegexFlags" = inl "Invalid regular expression: /(/" /\
  fst (run inputs' pr_titled) = Approved /\
  failures (snd (run inputs' pr)) = [] /\
  updates (snd (run inputs' pr)) = ["[TICK-42] Add login flow"].
Proof. repeat split; vm_compute; reflexivity. Qed.



End Examples.
(** ** What holds of every run *)

Section RunInvariants.

Context `{Platform}.
Variable inputs : gmap string string.

Implicit Types (ctx : PullRequestContext) (e tok fmt m id : string).

(** Open the named stages of a path. *)
Ltac stages :=
  unfold passes_branch, passes_exemption, passes_title, client_token in *;
  repeat match goal with E : _ /\ _ |- _ => destruct E end.

(** X1: requests to change the pull request are made only by a run that
    ends TitleUpdated, and then as its last calls: one title update for
    this pull request, with the title built from the title format, the
    prefix, the identifier that [extractId] found (in the branch name, or in
    the text the body pattern matched) and the old title, followed by the
    comment for the place of the reference unless [getInput] gives "true"
    for quiet. *)
Theorem requests_only_when_title_updated ctx :
  match fst (run inputs ctx) with
  | TitleUpdated source =>
      exists before fmt id,
        getInput inputs "titleFormat" true = inr fmt /\
        match source with
        | Branch => extracted inputs (head_ref ctx) = inr (Some id)
        | Body =>
            exists b m, body ctx = Some b /\
                        body_check inputs (to_string b) = inr (Some m) /\
                        extracted inputs m = inr (Some id)
        end /\
        snd (run inputs ctx)
        = before
          ++ PullsUpdate (owner ctx) (repo ctx) (number ctx)
               (new_title fmt (JsString.trim (input inputs "ticketPrefix")) id
                  (title ctx))
          :: (if String.eqb (JsString.trim (input inputs "quiet")) "true" then []
              else [PullsCreateReview (owner ctx) (repo ctx) (number ctx)
                      (notice_of source) "COMMENT"]) /\
        updates before = [] /\ reviews before = []
  | _ => updates (snd (run inputs ctx)) = [] /\ reviews (snd (run inputs ctx)) = []
  end.
Proof.
  pattern (run inputs ctx). apply run_cases; intros; cbn [fst snd]; try done.
  - stages.
    exists (title_calls ctx tok ++ exemption_calls inputs ctx ++ branch_found), fmt, id.
    split; [done|]. split; [done|]. split; [by rewrite <- !app_assoc|done].
  - stages.
    exists (title_calls ctx tok ++ exemption_calls inputs ctx ++ body_found b), fmt, id.
    split; [done|]. split; [by exists b, m|].
    split; [by rewrite <- !app_assoc|done].
Qed.

(** X2: with the option quiet equal to "true" no run requests a comment;
    in any run there is at most one title update, and a comment only
    together with it. *)
Theorem comment_needs_update ctx :
  (input inputs "quiet" = "true" -> reviews (snd (run inputs ctx)) = [])
  /\ length (reviews (snd (run inputs ctx))) <= length (updates (snd (run inputs ctx)))
  /\ length (updates (snd (run inputs ctx))) <= 1.
Proof.
  pattern (run inputs ctx). apply run_cases; intros; cbn [fst snd];
    unfold rewrite_calls, quiet, value;
    try (split; [done|split; cbn; lia]).
  - split; [by intros ->|]. destruct (String.eqb _ _); cbn; lia.
  - split; [by intros ->|]. destruct (String.eqb _ _); cbn; lia.
Qed.

(** X3: a run that does not fail has built the client exactly once, with
    the token that [getInput] returns, the option trimmed, which is not
    empty; a run that fails has built it at most once. *)
Theorem client_built_once ctx :
  match fst (run inputs ctx) with
  | Rejected _ =>
      clients (snd (run inputs ctx)) = [] \/
      clients (snd (run inputs ctx)) = [JsString.trim (input inputs "token")] /\
      JsString.trim (input inputs "token") <> EmptyString
  | _ =>
      clients (snd (run inputs ctx)) = [JsString.trim (input inputs "token")] /\
      JsString.trim (input inputs "token") <> EmptyString
  end.
Proof.
  pattern (run inputs ctx). apply run_cases; intros; cbn [fst]; stages;
    try (match goal with
         | E : getInput inputs "token" true = inr _ |- _ =>
             apply getInput_inr in E as [-> ?]
         end);
    unfold rewrite_calls, value in *; try destruct (quiet inputs); cbn; auto.
Qed.

(** X4: the body is looked at only at the body stage. When the run does
    not get past the branch stage, it ends the same way, and makes the same
    calls after the dump of the context, with any other body in the place of
    the one given. *)
Theorem body_read_only_at_body_stage ctx body' :
  (forall tok fmt, ~ passes_branch inputs ctx tok fmt) ->
  fst (run inputs (with_body ctx body')) = fst (run inputs ctx) /\
  exists rest,
    snd (run inputs ctx) = debug_calls "context" (JSON_stringify ctx) ++ rest /\
    snd (run inputs (with_body ctx body'))
    = debug_calls "context" (JSON_stringify (with_body ctx body')) ++ rest.
Proof.
  intros Hstop. pattern (run inputs ctx). apply run_cases; intros;
    try (exfalso; by eapply Hstop).
  - rewrite (run_title_error inputs (with_body ctx body') e) by done.
    split; [done|]. by eexists.
  - rewrite (run_token_error inputs (with_body ctx body') r e) by done.
    split; [done|]. by eexists.
  - rewrite (run_client_error inputs (with_body ctx body') r EmptyString) by done.
    split; [done|]. by eexists.
  - rewrite (run_approved inputs (with_body ctx body') m tok) by done.
    split; [done|]. by eexists.
  - rewrite (run_exempted inputs (with_body ctx body') tok) by done.
    split; [done|]. by eexists.
  - rewrite (run_titleFormat_error inputs (with_body ctx body') tok e) by done.
    split; [done|]. by eexists.
  - rewrite (run_branch_error inputs (with_body ctx body') tok fmt e) by done.
    split; [done|]. by eexists.
  - rewrite (run_branch_extract_error inputs (with_body ctx body') tok fmt m e)
      by done.
    split; [done|]. by eexists.
  - rewrite (run_branch_no_id inputs (with_body ctx body') tok fmt m) by done.
    split; [done|]. by eexists.
  - rewrite (run_branch_updated inputs (with_body ctx body') tok fmt m id) by done.
    split; [done|]. by eexists.
Qed.

(** X5: a run ends Approved exactly when the title pattern compiles and
    matches the title and the token that [getInput] returns, the option
    trimmed, is not empty. *)
Theorem approved_iff ctx :
  fst (run inputs ctx) = Approved <->
  exists m tok, title_check inputs ctx = inr (Some m) /\
                getInput inputs "token" true = inr tok /\ tok <> EmptyString.
Proof.
  pattern (run inputs ctx). apply run_cases; intros; cbn [fst]; stages;
    (split; [try discriminate|intros (m' & tok' & ? & ? & ?); congruence]).
  intros _. by exists m, tok.
Qed.

(** X6: a run ends Exempted exactly when it gets past the test of the
    title without a match, the client built with a token that is not empty,
    and the sender is not empty and is an entry of the exempt list. *)
Theorem exempted_iff ctx :
  fst (run inputs ctx) = Exempted <->
  exists tok, title_check inputs ctx = inr None /\
              getInput inputs "token" true = inr tok /\ tok <> EmptyString /\
              sender ctx <> EmptyString /\ sender ctx ∈ exemptUsers inputs.
Proof.
  transitivity (exists tok, passes_title inputs ctx tok /\ exempt inputs ctx = true).
  - pattern (run inputs ctx). apply run_cases; intros; cbn [fst]; stages;
      (split; [try discriminate|intros (tok' & [? [? ?]] & ?); congruence]).
    intros _. by exists tok.
  - setoid_rewrite exempt_true_iff. unfold passes_title, client_token.
    split; intros (tok & Hrest); exists tok; tauto.
Qed.

(** Close a path that the stated conditions exclude. *)
Ltac excluded :=
  intros; stages;
  repeat match goal with
    | E : exists _, _ |- _ => destruct E
    | E : _ /\ _ |- _ => destruct E
    end;
  congruence.

(** X7: a run ends TitleUpdated(branch) exactly when it gets past the
    exemption, the branch pattern matches and an identifier is extracted
    from the branch name; it ends TitleUpdated(body) exactly when the branch
    pattern does not match, the body is not undefined, the body pattern
    matches its text and an identifier is extracted from the matched
    text. *)
Theorem title_updated_iff ctx source :
  fst (run inputs ctx) = TitleUpdated source <->
  exists tok fmt,
    passes_exemption inputs ctx tok fmt /\
    match source with
    | Branch =>
        exists m id, branch_check inputs ctx = inr (Some m) /\
                     extracted inputs (head_ref ctx) = inr (Some id)
    | Body =>
        branch_check inputs ctx = inr None /\
        exists b m id, body ctx = Some b /\
                       body_check inputs (to_string b) = inr (Some m) /\
                       extracted inputs m = inr (Some id)
    end.
Proof.
  pattern (run inputs ctx). apply run_cases; intros; cbn [fst];
    destruct source; (split; [try discriminate|try excluded]).
  - intros _. exists tok, fmt. split; [done|]. by exists m, id.
  - intros _. match goal with E : passes_branch _ _ _ _ |- _ => destruct E end.
    exists tok, fmt. split; [done|]. split; [done|]. by exists b, m, id.
Qed.

(** X8: the message of a failed run is one of the four messages of [run]
    itself, or the message of [getInput] for one of the nine required
    options, which then has no value, or the message of [getOctokit] for a
    token that is blank, or a message with which the platform refused to
    compile a pattern. *)
Theorem failure_messages ctx e :
  fst (run inputs ctx) = Rejected e ->
  e ∈ fixed_failures \/
  (exists name, name ∈ required_options /\ input inputs name = EmptyString /\
                e = "Input required and not supplied: " +:+ name) \/
  (e = "Parameter token or opts.auth is required" /\
   input inputs "token" <> EmptyString /\
   JsString.trim (input inputs "token") = EmptyString) \/
  (exists base flags, RegExp_new base flags = inl e).
Proof.
  assert (forall name e', name ∈ required_options ->
            getInput inputs name true = inl e' ->
            exists name', name' ∈ required_options /\
                          input inputs name' = EmptyString /\
                          e' = "Input required and not supplied: " +:+ name')
    as Hmissing.
  { intros name e' Hname [? ->]%getInput_inl. by exists name. }
  assert (forall base flags s e',
            base ∈ required_options -> flags ∈ required_options ->
            check inputs base flags s = inl e' ->
            (exists name', name' ∈ required_options /\
                           input inputs name' = EmptyString /\
                           e' = "Input required and not supplied: " +:+ name') \/
            (exists b f, RegExp_new b f = inl e')) as Hcheck.
  { intros base flags s e' Hbase Hflags Herr%check_inl.
    apply pattern_of_inl in Herr as [Hb|[(b & _ & Hf)|(b & f & _ & _ & Hre)]].
    - left. by apply (Hmissing base).
    - left. by apply (Hmissing flags).
    - right. by exists b, f. }
  assert (forall v e',
            extracted inputs v = inl e' ->
            (exists name', name' ∈ required_options /\
                           input inputs name' = EmptyString /\
                           e' = "Input required and not supplied: " +:+ name') \/
            (exists b f, RegExp_new b f = inl e')) as Hextract.
  { intros v e' [Hp|(p & _ & Hre)]%extracted_inl.
    - left. apply (Hmissing "ticketRegex"); [by repeat constructor|done].
    - right. by exists p, EmptyString. }
  assert (forall A B C : Prop, A \/ C -> A \/ B \/ C) as Hskip by tauto.
  pattern (run inputs ctx). apply run_cases; intros; cbn [fst] in *;
    simplify_eq; stages;
    try (left; by repeat constructor);
    try (right; apply Hskip; by eapply Hextract).
  - right. apply Hskip. eapply Hcheck; [| |done]; by repeat constructor.
  - right. left. eapply Hmissing; [|done]. by repeat constructor.
  - right. right. left.
    match goal with
    | E : getInput inputs "token" true = inr _ |- _ =>
        apply getInput_inr in E as [Hv ?]
    end.
    split; [done|]. split; [done|]. symmetry. exact Hv.
  - right. left. eapply Hmissing; [|done]. by repeat constructor.
  - right. apply Hskip. eapply Hcheck; [| |done]; by repeat constructor.
  - right. apply Hskip. eapply Hcheck; [| |done]; by repeat constructor.
Qed.

End RunInvariants.

(** ** The options [run] reads *)

Section Frame.

Context `{Platform}.
Variables inputs inputs' : gmap string string.

Lemma getInput_agree name required :
  input inputs name = input inputs' name ->
  getInput inputs name required = getInput inputs' name required.
Proof. unfold getInput, input. by intros ->. Qed.

(** X13: a run depends on the configuration only through the values of
    the twelve options it names, an option that is not supplied counting as
    an empty one: two configurations that agree there behave alike. *)
Theorem run_reads_named_options ctx :
  (forall name, name ∈ read_options -> input inputs name = input inputs' name) ->
  run inputs ctx = run inputs' ctx.
Proof.
  intros Hsame.
  assert (forall name required, name ∈ read_options ->
            getInput inputs name required = getInput inputs' name required)
    as Hget by (intros; by apply getInput_agree, Hsame).
  unfold run, run_try, extractId.
  rewrite !(Hget "titleRegex"), !(Hget "titleRegexFlags"), !(Hget "token"),
    !(Hget "quiet"), !(Hget "exemptUsers"), !(Hget "ticketPrefix"),
    !(Hget "titleFormat"), !(Hget "branchRegex"), !(Hget "branchRegexFlags"),
    !(Hget "ticketRegex"), !(Hget "bodyRegex"), !(Hget "bodyRegexFlags")
    by (by repeat constructor).
  reflexivity.
Qed.

End Frame.

(** ** Templates without placeholders *)

Section TemplateEdges.

Import JsString Spec.

(** X14: a template in which none of the three placeholders occurs is
    sent as the new title as it is, whatever the prefix, the identifier and
    the old title are: the old title is lost. *)
Theorem template_without_placeholders (titleFormat ticketPrefix id title : string) :
  (forall p before after, ~ occurrence (token p) titleFormat before after) ->
  new_title titleFormat ticketPrefix id title = titleFormat.
Proof.
  intros Hnone. unfold new_title.
  rewrite (replace_no_occurrence titleFormat "%prefix%") by apply (Hnone Prefix).
  rewrite (replace_no_occurrence titleFormat "%id%") by apply (Hnone Id).
  by rewrite (replace_no_occurrence titleFormat "%title%") by apply (Hnone Title).
Qed.

End TemplateEdges.
(** ** The exempt list *)

Section ExemptList.

Import JsString.

Local Arguments Ascii.eqb : simpl never.
Local Arguments is_white_space : simpl never.

Variable inputs : gmap string string.

Lemma sender_of_bot_name name :
  free_of "[" name = true -> sender_of "Bot" (name +:+ "[bot]") = name.
Proof.
  intros Hname. unfold sender_of, replace. cbn [String.eqb Ascii.eqb Bool.eqb].
  assert (split_first "[bot]" (name +:+ "[bot]") = Some (name, EmptyString)) as ->.
  { rewrite split_first_skip_free by done.
    rewrite <- (app_empty_r "[bot]") at 2. rewrite split_first_found.
    unfold Spec.prepend. cbn. by rewrite app_empty_r. }
  cbn. by rewrite !app_empty_r.
Qed.

Lemma exemptUsers_entry e :
  e ∈ exemptUsers inputs ->
  exists piece, piece ∈ split (input inputs "exemptUsers") "," /\ e = trim piece.
Proof.
  unfold exemptUsers. intros (piece & -> & Hin)%(list_elem_of_fmap_1 trim).
  by exists piece.
Qed.

(** X9: with the option exemptUsers unset or empty nobody is exempt,
    although splitting the empty string gives one entry, the empty one: an
    empty sender is never exempt. *)
Theorem exempt_needs_an_entry ctx :
  (sender ctx = EmptyString -> exempt inputs ctx = false)
  /\ (input inputs "exemptUsers" = EmptyString ->
      exemptUsers inputs = [EmptyString] /\ exempt inputs ctx = false).
Proof.
  split.
  - intros Hs. unfold exempt. by rewrite Hs.
  - intros Hin. assert (exemptUsers inputs = [EmptyString]) as Hlist
      by (unfold exemptUsers; by rewrite Hin).
    split; [done|]. apply not_true_is_false. rewrite exempt_true_iff, Hlist.
    intros [Hne Hs%list_elem_of_singleton]. done.
Qed.

(** X10: a Bot whose login is a name without '[' followed by "[bot]" is
    exempt exactly when the name is not empty and is an entry of the exempt
    list; the login with its marker being an entry does not count. *)
Theorem bot_exempt_by_name ctx name :
  user_type ctx = "Bot" -> user_login ctx = name +:+ "[bot]" ->
  free_of "[" name = true ->
  sender ctx = name /\
  (exempt inputs ctx = true <->
   name <> EmptyString /\ name ∈ exemptUsers inputs).
Proof.
  intros Htype Hlogin Hname.
  assert (sender ctx = name) as Hs
    by (unfold sender; rewrite Htype, Hlogin; by apply sender_of_bot_name).
  split; [done|]. by rewrite exempt_true_iff, Hs.
Qed.

(** X11: every entry of the exempt list is a piece between two commas of
    the option, trimmed: it has no comma and trimming it again changes
    nothing. So a sender with a comma in it, or with white space at one of
    its ends, is never exempt. *)
Theorem exempt_entries_trimmed ctx :
  (forall e, e ∈ exemptUsers inputs ->
     trim e = e /\ free_of "," e = true)
  /\ (exempt inputs ctx = true ->
      trim (sender ctx) = sender ctx /\ free_of "," (sender ctx) = true).
Proof.
  assert (forall e, e ∈ exemptUsers inputs -> trim e = e /\ free_of "," e = true)
    as Hentries.
  { intros e (piece & Hpiece & ->)%exemptUsers_entry. split.
    - apply trim_idemp.
    - by eapply free_of_trim, split_pieces_free. }
  split; [done|]. intros [_ Hin]%exempt_true_iff. by apply Hentries.
Qed.

(** X12: joining the pieces of a split gives the string back, and a split
    has at least one piece. So when no piece of the option exemptUsers has
    white space at its ends, the line logged for the exempt users is the
    option as it was supplied. *)
Theorem exempt_users_logged_as_supplied :
  (forall piece, piece ∈ split (input inputs "exemptUsers") "," ->
     trim piece = piece) ->
  join (exemptUsers inputs) "," = input inputs "exemptUsers" /\
  exemptUsers inputs <> [] /\
  forall s sep, join (split s sep) (String sep EmptyString) = s.
Proof.
  intros Hclean.
  assert (exemptUsers inputs = split (input inputs "exemptUsers") ",") as Hsame.
  { unfold exemptUsers.
    induction (split (input inputs "exemptUsers") ",") as [|p l IH]; [done|].
    cbn [map]. rewrite (Hclean p) by apply list_elem_of_here.
    rewrite IH; [done|]. intros q Hq. apply Hclean. by apply list_elem_of_further. }
  split; [|split].
  - rewrite Hsame. apply join_split.
  - rewrite Hsame. apply split_not_nil.
  - apply join_split.
Qed.

End ExemptList.

(** ** More worked examples on the small platform *)

Section MoreExamples.

#[local] Existing Instance Plain.platform.

Import Plain.

Lemma body_read_only_at_body_stage_witness :
  fst (run inputs (with_body pr None)) = TitleUpdated Branch /\
  fst (run inputs (with_body pr (Some JsNull))) = TitleUpdated Branch /\
  updates (snd (run inputs (with_body pr None))) = ["[TICK-42] Add login flow"].
Proof.
  assert (forall tok fmt, ~ passes_branch inputs pr tok fmt) as Hstop.
  { intros tok fmt [_ Hbranch]. vm_compute in Hbranch. discriminate. }
  split; [exact (proj1 (body_read_only_at_body_stage inputs pr None Hstop))|].
  split; [exact (proj1 (body_read_only_at_body_stage inputs pr (Some JsNull) Hstop))|].
  vm_compute. reflexivity.
Defined.

Lemma failure_messages_witness :
  "Parameter token or opts.auth is required" ∈ fixed_failures \/
  (exists name, name ∈ required_options /\
                input (<["token" := " "]> inputs) name = EmptyString /\
                "Parameter token or opts.auth is required"
                = "Input required and not supplied: " +:+ name) \/
  ("Parameter token or opts.auth is required"
   = "Parameter token or opts.auth is required" /\
   input (<["token" := " "]> inputs) "token" <> EmptyString /\
   JsString.trim (input (<["token" := " "]> inputs) "token") = EmptyString) \/
  (exists base flags,
      RegExp_new base flags = inl "Parameter token or opts.auth is required").
Proof.
  assert (fst (run (<["token" := " "]> inputs) pr)
          = Rejected "Parameter token or opts.auth is required") as Hfail
    by (vm_compute; reflexivity).
  exact (failure_messages (<["token" := " "]> inputs) pr _ Hfail).
Defined.

(** The message of [getInput] for a required option without a value. *)
Example missing_title_format_message :
  run (delete "titleFormat" inputs) pr =
    (Rejected "Input required and not supplied: titleFormat",
     title_calls pr "t0k3n" ++ exemption_calls inputs pr
     ++ [SetFailed "Input required and not supplied: titleFormat"]).
Proof. vm_compute. reflexivity. Qed.

Lemma bot_exempt_by_name_witness :
  sender pr_bot = "renovate" /\
  (exempt inputs pr_bot = true <->
   "renovate" <> EmptyString /\ "renovate" ∈ exemptUsers inputs).
Proof.
  exact (bot_exempt_by_name inputs pr_bot "renovate" eq_refl eq_refl eq_refl).
Defined.

(** The marker is not part of the name that is looked up: listing the login
    of the bot as it is does not exempt it. *)
Example bot_login_entry_does_not_exempt :
  exempt (<["exemptUsers" := "renovate[bot]"]> inputs) pr_bot = false /\
  exempt (<["exemptUsers" := "renovate"]> inputs) pr_bot = true.
Proof. split; vm_compute; reflexivity. Qed.

Lemma exempt_users_logged_as_supplied_witness :
  JsString.join (exemptUsers (<["exemptUsers" := "dependabot,renovate"]> inputs)) ","
  = input (<["exemptUsers" := "dependabot,renovate"]> inputs) "exemptUsers".
Proof.
  assert (forall piece,
            piece ∈ JsString.split
                      (input (<["exemptUsers" := "dependabot,renovate"]> inputs)
                         "exemptUsers") "," ->
            JsString.trim piece = piece) as Hclean.
  { intros piece Hin%list_elem_of_In. vm_compute in Hin.
    destruct Hin as [<-|[<-|[]]]; reflexivity. }
  exact (proj1 (exempt_users_logged_as_supplied _ Hclean)).
Defined.

Lemma run_reads_named_options_witness :
  run inputs pr = run (<["dryRun" := "true"]> inputs) pr.
Proof.
  assert (forall name, name ∈ read_options ->
            input inputs name = input (<["dryRun" := "true"]> inputs) name) as Hsame.
  { intros name Hin%list_elem_of_In. cbn in Hin.
    repeat (destruct Hin as [<-|Hin]; [vm_compute; reflexivity|]).
    destruct Hin. }
  exact (run_reads_named_options inputs (<["dryRun" := "true"]> inputs) pr Hsame).
Defined.

Lemma template_without_placeholders_witness :
  new_title "Ticket pending" "TICK" "42" "Add login flow" = "Ticket pending".
Proof.
  apply template_without_placeholders.
  intros p before after. apply split_first_None. by destruct p.
Defined.

End MoreExamples.
